(** * CocoIndex standalone watcher: debouncing and process supervision

    A shallow embedding of [standalone_watcher.py] and [watch_and_index.py].

    - Clock readings ([time.time()]) and durations are rationals ([Q]); the
      rounding of floating-point subtraction is not modelled.
    - Printed messages are kept as strings without the [[%Y-%m-%d %H:%M:%S]]
      prefix.  Text that comes from the environment (arguments, paths, the
      output of commands) is in the encoding of the environment and prints;
      the three pictographs in the messages of [trigger_indexing] are
      literals of the source, and print only on a standard output whose
      encoding has them.
    - External processes, the file system and the signals a session receives
      are inputs of the model, gathered in the record [World]. *)

From Stdlib Require Import List String Ascii Bool ZArith QArith Lqa Lia Sorted.
Import ListNotations.

Local Open Scope Q_scope.

(** ** Rational comparison as the code writes it: [a < b] *)

Definition Qltb (a b : Q) : bool := negb (Qle_bool b a).

(** ** Strings *)

Local Open Scope string_scope.

(** Whitespace as [str.strip()] sees it, restricted to ASCII. *)
Definition is_space (c : ascii) : bool :=
  let n := nat_of_ascii c in
  (((9 <=? n) && (n <=? 13)) || ((28 <=? n) && (n <=? 32)))%nat.

Definition is_empty (s : string) : bool :=
  match s with EmptyString => true | String _ _ => false end.

Fixpoint lstrip (s : string) : string :=
  match s with
  | EmptyString => EmptyString
  | String c s' => if is_space c then lstrip s' else s
  end.

Fixpoint rstrip (s : string) : string :=
  match s with
  | EmptyString => EmptyString
  | String c s' =>
      let r := rstrip s' in
      if is_space c && is_empty r then EmptyString else String c r
  end.

Definition strip (s : string) : string := rstrip (lstrip s).

(** [' '.join(cmd)] *)
Fixpoint join_space (l : list string) : string :=
  match l with
  | [] => EmptyString
  | [x] => x
  | x :: l' => x ++ " " ++ join_space l'
  end.

(** ** Exceptions and the ways a call can end *)

Inductive exn : Type :=
| TimeoutExpired
| FileNotFoundError
| NotADirectoryError
| PermissionError
| CalledProcessError (returncode : Z)
| AttributeError
| UnicodeEncodeError
| KeyboardInterrupt
| SystemExit (code : Z).

(** [except Exception] catches everything but the two [BaseException]s. *)
Definition is_Exception (e : exn) : bool :=
  match e with
  | KeyboardInterrupt | SystemExit _ => false
  | _ => true
  end.

Definition is_TimeoutExpired (e : exn) : bool :=
  match e with TimeoutExpired => true | _ => false end.

Definition is_CalledProcessError (e : exn) : bool :=
  match e with CalledProcessError _ => true | _ => false end.

Definition is_KeyboardInterrupt (e : exn) : bool :=
  match e with KeyboardInterrupt => true | _ => false end.

(** [str(e)], kept to the part of the message that does not depend on the
    call that failed (the path, the command, the codec and the character). *)
Definition exn_str (e : exn) : string :=
  match e with
  | TimeoutExpired => "timed out"
  | FileNotFoundError => "No such file or directory"
  | NotADirectoryError => "Not a directory"
  | PermissionError => "Permission denied"
  | CalledProcessError _ => "returned non-zero exit status"
  | AttributeError => "'NoneType' object has no attribute"
  | UnicodeEncodeError => "codec can't encode character"
  | KeyboardInterrupt => "KeyboardInterrupt"
  | SystemExit _ => "SystemExit"
  end.

Inductive res (A : Type) : Type :=
| Ret (a : A)          (* the call returns *)
| Raise (e : exn)      (* an exception propagates out of the call *)
| OsExit (code : Z)    (* [os._exit]: the process is gone, no handler runs *)
| Blocks.              (* the call has not returned: a loop that is still going *)

Arguments Ret {A} a.
Arguments Raise {A} e.
Arguments OsExit {A} code.
Arguments Blocks {A}.

(** The exit status of the interpreter when its main function ends this way;
    [None] while it is still running. *)
Definition exit_status (r : res unit) : option Z :=
  match r with
  | Ret _ => Some 0%Z
  | Raise (SystemExit c) => Some c
  | Raise KeyboardInterrupt => Some 130%Z
  | Raise _ => Some 1%Z
  | OsExit c => Some c
  | Blocks => None
  end.

(** ** The world outside the program *)

Inductive node : Type := File | Dir.

(** What an external command does once launched. *)
Inductive proc_outcome : Type :=
| Exits (duration : Q) (returncode : Z) (stdout stderr : string)
| Never                (* runs until something stops it *)
| NotFound             (* the executable is missing: [FileNotFoundError] *)
| Denied.              (* it cannot be launched: [PermissionError] *)

Record CompletedProcess : Type := mkCompleted {
  returncode : Z;
  stdout : string;
  stderr : string
}.

(** The companion server as a child process: [exits_after] counts the polls
    it survives when left alone, [sigterm_delay] is how long it takes to stop
    after a graceful-stop signal ([None]: it ignores the signal). *)
Record child : Type := mkChild {
  exits_after : option nat;
  exit_code : Z;
  child_stdout : string;
  child_stderr : string;
  sigterm_delay : option Q
}.

Inductive popen_status : Type :=
| Running
| Signalled            (* [terminate()] was called, the child has not been reaped *)
| Exited (rc : Z).

Record Popen : Type := mkPopen {
  proc : child;
  status : popen_status
}.

Record event : Type := mkEvent {
  is_directory : bool;
  src_path : string
}.

(** What reaches the process while it waits: a file-system event together
    with the clock reading its handler takes, or a signal. *)
Inductive input : Type :=
| FsEvent (ev : event) (now : Q)
| Signal (signum : Z).

Inductive effect : Type :=
| Print (s : string)
| Run (cmd : list string) (timeout : option Q)   (* [subprocess.run] *)
| Spawn (cmd : list string)                      (* [subprocess.Popen] *)
| Poll (r : option Z)
| Communicate
| Terminate
| Waited (d : Q)                                 (* time spent in [Popen.wait] *)
| Kill
| Sleep (d : Q)
| InstallHandlers
| Schedule (path : string) (recursive : bool)
| ObserverStart
| ObserverStop
| ObserverJoin
| Makedirs (path : string)
| ThreadStart
| ThreadJoin.

Record World : Type := mkWorld {
  fs : string -> option node;
  makedirs_ok : bool;
  environ : string -> option string;
  stdout_unicode : bool;                        (* [sys.stdout] can encode the pictographs *)
  sys_executable : string;
  oracle : nat -> list string -> proc_outcome;  (* the n-th [subprocess.run] *)
  nruns : nat;
  companion : option child;                     (* what [Popen] would start *)
  inbox : list input;
  shutdown_event : bool;
  observer : bool;                              (* the global is not [None] *)
  mcp_server_process : option Popen;
  mcp_server_thread : option bool;              (* [Some alive] once created *)
  trace : list effect                           (* oldest first *)
}.

Definition emit (e : effect) (w : World) : World :=
  mkWorld (fs w) (makedirs_ok w) (environ w) (stdout_unicode w)
          (sys_executable w) (oracle w) (nruns w)
          (companion w) (inbox w) (shutdown_event w) (observer w)
          (mcp_server_process w) (mcp_server_thread w) (trace w ++ [e]).

Definition bump (w : World) : World :=
  mkWorld (fs w) (makedirs_ok w) (environ w) (stdout_unicode w)
          (sys_executable w) (oracle w) (S (nruns w))
          (companion w) (inbox w) (shutdown_event w) (observer w)
          (mcp_server_process w) (mcp_server_thread w) (trace w).

Definition with_fs (f : string -> option node) (w : World) : World :=
  mkWorld f (makedirs_ok w) (environ w) (stdout_unicode w)
          (sys_executable w) (oracle w) (nruns w)
          (companion w) (inbox w) (shutdown_event w) (observer w)
          (mcp_server_process w) (mcp_server_thread w) (trace w).

Definition with_shutdown_event (b : bool) (w : World) : World :=
  mkWorld (fs w) (makedirs_ok w) (environ w) (stdout_unicode w)
          (sys_executable w) (oracle w) (nruns w)
          (companion w) (inbox w) b (observer w)
          (mcp_server_process w) (mcp_server_thread w) (trace w).

Definition with_observer (b : bool) (w : World) : World :=
  mkWorld (fs w) (makedirs_ok w) (environ w) (stdout_unicode w)
          (sys_executable w) (oracle w) (nruns w)
          (companion w) (inbox w) (shutdown_event w) b
          (mcp_server_process w) (mcp_server_thread w) (trace w).

Definition with_process (p : option Popen) (w : World) : World :=
  mkWorld (fs w) (makedirs_ok w) (environ w) (stdout_unicode w)
          (sys_executable w) (oracle w) (nruns w)
          (companion w) (inbox w) (shutdown_event w) (observer w)
          p (mcp_server_thread w) (trace w).

Definition with_thread (t : option bool) (w : World) : World :=
  mkWorld (fs w) (makedirs_ok w) (environ w) (stdout_unicode w)
          (sys_executable w) (oracle w) (nruns w)
          (companion w) (inbox w) (shutdown_event w) (observer w)
          (mcp_server_process w) t (trace w).

(** ** A state monad with exceptions *)

Definition M (A : Type) : Type := World -> res A * World.

Definition ret {A} (a : A) : M A := fun w => (Ret a, w).

Definition bind {A B} (c : M A) (k : A -> M B) : M B :=
  fun w =>
    match c w with
    | (Ret a, w') => k a w'
    | (Raise e, w') => (Raise e, w')
    | (OsExit n, w') => (OsExit n, w')
    | (Blocks, w') => (Blocks, w')
    end.

Notation "x <- c ;; k" := (bind c (fun x => k))
  (at level 61, c at next level, right associativity).
Notation "c ;; k" := (bind c (fun _ => k))
  (at level 61, right associativity).

Definition raise {A} (e : exn) : M A := fun w => (Raise e, w).
Definition blocks {A} : M A := fun w => (Blocks, w).

(** [sys.exit(code)] raises [SystemExit]; [os._exit(code)] does not return. *)
Definition sys_exit {A} (code : Z) : M A := raise (SystemExit code).
Definition os_exit {A} (code : Z) : M A := fun w => (OsExit code, w).

(** [try: c  except E1: h1  except E2: h2 ...]: the first clause that matches
    handles the exception; what a handler raises is not caught here. *)
Fixpoint pick {A} (e : exn) (clauses : list ((exn -> bool) * (exn -> M A))) : M A :=
  match clauses with
  | [] => raise e
  | (catches, handler) :: rest => if catches e then handler e else pick e rest
  end.

Definition try_ {A} (c : M A) (clauses : list ((exn -> bool) * (exn -> M A))) : M A :=
  fun w =>
    match c w with
    | (Raise e, w') => pick e clauses w'
    | r => r
    end.

(** [try: c  finally: f] *)
Definition finally {A} (c : M A) (f : M unit) : M A :=
  fun w =>
    match c w with
    | (Ret a, w') => (f ;; ret a) w'
    | (Raise e, w') => (f ;; raise e) w'
    | r => r
    end.

Definition print (s : string) : M unit := fun w => (Ret tt, emit (Print s) w).

(** A string given by its UTF-8 bytes. *)
Definition utf8 (bytes : list nat) : string :=
  fold_right (fun n s => String (ascii_of_nat n) s) EmptyString bytes.

(** The pictographs of lines 80, 85 and 90: U+2705, U+274C, and U+23F1
    followed by U+FE0F. *)
Definition check_mark : string := utf8 [226; 156; 133]%nat.
Definition cross_mark : string := utf8 [226; 157; 140]%nat.
Definition stopwatch : string := utf8 [226; 143; 177; 239; 184; 143]%nat.

(** [print] of a message that holds a pictograph: on a standard output that
    cannot encode it, nothing is written and [UnicodeEncodeError] is raised. *)
Definition print_pictograph (s : string) : M unit :=
  fun w =>
    if stdout_unicode w then (Ret tt, emit (Print s) w)
    else (Raise UnicodeEncodeError, w).
Definition do_ (e : effect) : M unit := fun w => (Ret tt, emit e w).
Definition sleep (d : Q) : M unit := do_ (Sleep d).

Definition when (b : bool) (c : M unit) : M unit := if b then c else ret tt.

Definition path_exists (p : string) : M bool :=
  fun w => (Ret (match fs w p with Some _ => true | None => false end), w).

Definition path_is_dir (p : string) : M bool :=
  fun w => (Ret (match fs w p with Some Dir => true | _ => false end), w).

(** [subprocess.run(cmd, timeout=..., check=...)].  The captured output is
    returned whether or not the call site captures it. *)
Definition subprocess_run (cmd : list string) (timeout : option Q) (check : bool)
  : M CompletedProcess :=
  fun w =>
    let w' := emit (Run cmd timeout) (bump w) in
    match oracle w (nruns w) cmd with
    | Exits d rc out err =>
        if match timeout with Some t => Qltb t d | None => false end
        then (Raise TimeoutExpired, w')
        else if check && negb (rc =? 0)%Z
        then (Raise (CalledProcessError rc), w')
        else (Ret (mkCompleted rc out err), w')
    | Never =>
        match timeout with
        | Some _ => (Raise TimeoutExpired, w')
        | None => (Blocks, w')
        end
    | NotFound => (Raise FileNotFoundError, w')
    | Denied => (Raise PermissionError, w')
    end.

(** *** The [Popen] object behind the global [mcp_server_process] *)

Definition SIGTERM_rc : Z := (-15)%Z.
Definition SIGKILL_rc : Z := (-9)%Z.

(** [subprocess.Popen(cmd, stdout=PIPE, stderr=PIPE, text=True)] *)
Definition popen (cmd : list string) : M unit :=
  fun w =>
    match companion w with
    | None => (Raise FileNotFoundError, emit (Spawn cmd) w)
    | Some c => (Ret tt, with_process (Some (mkPopen c Running)) (emit (Spawn cmd) w))
    end.

Definition poll_step (p : Popen) : option Z * Popen :=
  match status p with
  | Exited rc => (Some rc, p)
  | Signalled => (None, p)
  | Running =>
      match exits_after (proc p) with
      | Some O => (Some (exit_code (proc p)), mkPopen (proc p) (Exited (exit_code (proc p))))
      | Some (S n) =>
          (None, mkPopen (mkChild (Some n) (exit_code (proc p)) (child_stdout (proc p))
                                  (child_stderr (proc p)) (sigterm_delay (proc p))) Running)
      | None => (None, p)
      end
  end.

(** Method calls on the global [mcp_server_process]; on [None] they would
    raise [AttributeError]. *)
Definition on_process {A} (f : Popen -> World -> res A * World) : M A :=
  fun w =>
    match mcp_server_process w with
    | Some p => f p w
    | None => (Raise AttributeError, w)
    end.

(** [poll()] *)
Definition poll : M (option Z) :=
  on_process (fun p w =>
    let (r, p') := poll_step p in
    (Ret r, with_process (Some p') (emit (Poll r) w))).

(** [terminate()]: a graceful-stop signal, nothing on a reaped child. *)
Definition terminate : M unit :=
  on_process (fun p w =>
    match status p with
    | Running => (Ret tt, with_process (Some (mkPopen (proc p) Signalled)) (emit Terminate w))
    | _ => (Ret tt, w)
    end).

(** [wait(timeout=t)] *)
Definition wait (t : Q) : M Z :=
  on_process (fun p w =>
    match status p with
    | Exited rc => (Ret rc, emit (Waited 0) w)
    | Signalled =>
        match sigterm_delay (proc p) with
        | Some d =>
            if Qle_bool d t
            then (Ret SIGTERM_rc,
                  with_process (Some (mkPopen (proc p) (Exited SIGTERM_rc))) (emit (Waited d) w))
            else (Raise TimeoutExpired, emit (Waited t) w)
        | None => (Raise TimeoutExpired, emit (Waited t) w)
        end
    | Running =>
        match exits_after (proc p) with
        | Some n =>
            if Qle_bool (inject_Z (Z.of_nat n) / 10) t
            then (Ret (exit_code (proc p)),
                  with_process (Some (mkPopen (proc p) (Exited (exit_code (proc p)))))
                               (emit (Waited (inject_Z (Z.of_nat n) / 10)) w))
            else (Raise TimeoutExpired, emit (Waited t) w)
        | None => (Raise TimeoutExpired, emit (Waited t) w)
        end
    end).

(** [kill()]: the forceful stop cannot be ignored; the child counts as gone at once. *)
Definition kill : M unit :=
  on_process (fun p w =>
    match status p with
    | Exited _ => (Ret tt, w)
    | _ => (Ret tt, with_process (Some (mkPopen (proc p) (Exited SIGKILL_rc))) (emit Kill w))
    end).

(** [communicate()] reads both pipes to their end, which comes when the
    child is gone. *)
Definition communicate : M (string * string) :=
  on_process (fun p w =>
    match status p with
    | Exited _ => (Ret (child_stdout (proc p), child_stderr (proc p)), emit Communicate w)
    | _ => (Blocks, emit Communicate w)
    end).

(** [threading.Thread(target=body, daemon=True).start()].  The body runs up
    to the point where it blocks before the starter goes on (in both programs
    the starter sleeps two seconds next); an exception ends the thread alone,
    [os._exit] ends the process. *)
Definition thread_start (body : M unit) : M unit :=
  fun w =>
    match body (emit ThreadStart w) with
    | (Blocks, w') => (Ret tt, with_thread (Some true) w')
    | (OsExit n, w') => (OsExit n, w')
    | (_, w') => (Ret tt, with_thread (Some false) w')
    end.

Local Close Scope string_scope.

(** ** The debounce gate of [CocoIndexEventHandler] *)

Module StandaloneWatcher.

(** [self.lock] is a [threading.Lock]; in the sequential model a [with self.lock]
    block is one step, so the record keeps the data fields only.  The lock is
    explicit in [Module Threads] below. *)
Record CocoIndexEventHandler : Type := mkHandler {
  watch_path : string;
  app_target : string;
  debounce_seconds : Q;
  last_trigger_time : Q
}.

(** [__init__(self, watch_path, app_target, debounce_seconds=2.0)] *)
Definition init (wp tgt : string) (debounce : Q) : CocoIndexEventHandler :=
  {| watch_path := wp; app_target := tgt;
     debounce_seconds := debounce; last_trigger_time := 0 |}.

Definition default_debounce_seconds : Q := 2.

Definition set_last_trigger_time (h : CocoIndexEventHandler) (t : Q) :=
  {| watch_path := watch_path h; app_target := app_target h;
     debounce_seconds := debounce_seconds h; last_trigger_time := t |}.

(** Lines 52-55 of [on_any_event]:
<<
        with self.lock:
            if current_time - self.last_trigger_time < self.debounce_seconds:
                return
            self.last_trigger_time = current_time
>>
    The boolean tells whether the call goes on to [trigger_indexing]. *)
Definition debounce (h : CocoIndexEventHandler) (current_time : Q)
  : bool * CocoIndexEventHandler :=
  if Qltb (current_time - last_trigger_time h) (debounce_seconds h)
  then (false, h)
  else (true, set_last_trigger_time h current_time).

(** The gate driven by a sequence of clock readings, one per call. *)
Fixpoint accepts (h : CocoIndexEventHandler) (ts : list Q) : list bool :=
  match ts with
  | [] => []
  | t :: ts' => fst (debounce h t) :: accepts (snd (debounce h t)) ts'
  end.

(** The clock readings of the accepted calls, in order. *)
Fixpoint accepted (h : CocoIndexEventHandler) (ts : list Q) : list Q :=
  match ts with
  | [] => []
  | t :: ts' =>
      if fst (debounce h t) then t :: accepted (snd (debounce h t)) ts'
      else accepted (snd (debounce h t)) ts'
  end.

(** The handler after the whole sequence. *)
Fixpoint after_calls (h : CocoIndexEventHandler) (ts : list Q) : CocoIndexEventHandler :=
  match ts with
  | [] => h
  | t :: ts' => after_calls (snd (debounce h t)) ts'
  end.

Local Open Scope string_scope.

Definition probe_cmd : list string := ["cocoindex"; "--version"].

Definition update_cmd (target : string) : list string := ["cocoindex"; "update"; target].

Definition catches_probe_failure (e : exn) : bool :=
  match e with
  | TimeoutExpired | FileNotFoundError => true
  | _ => false
  end.

(** [check_cocoindex_available] *)
Definition check_cocoindex_available : M bool :=
  try_ (result <- subprocess_run probe_cmd (Some 10) false ;;
        ret (returncode result =? 0)%Z)
       [(catches_probe_failure, fun _ => ret false)].

(** [trigger_indexing].  The messages of lines 80, 85 and 90 start with a
    pictograph; the one of line 90 is printed inside the [except] clause,
    where nothing catches what [print] raises. *)
Definition trigger_indexing (self : CocoIndexEventHandler) : M unit :=
  try_ (print "Starting indexing..." ;;
        available <- check_cocoindex_available ;;
        if negb available then
          print "Error: CocoIndex is not available. Please ensure it's installed and in PATH."
        else
          result <- subprocess_run (update_cmd (app_target self)) (Some 300) false ;;
          if (returncode result =? 0)%Z then
            print_pictograph (check_mark ++ " Indexing completed successfully") ;;
            when (negb (is_empty (strip (stdout result))))
                 (print ("Output: " ++ strip (stdout result)))
          else
            print_pictograph (cross_mark ++ " Indexing failed") ;;
            print ("Error: " ++ strip (stderr result)))
       [(is_TimeoutExpired,
         fun _ => print_pictograph (stopwatch ++ "  Indexing timed out after 5 minutes"));
        (is_Exception, fun e => print ("Error during indexing: " ++ exn_str e))].

(** [on_any_event]; [current_time] is what [time.time()] returns at line 51. *)
Definition on_any_event (self : CocoIndexEventHandler) (ev : event) (current_time : Q)
  : M CocoIndexEventHandler :=
  if is_directory ev then ret self
  else
    let (go, self') := debounce self current_time in
    if go then
      print ("Change detected: " ++ src_path ev) ;;
      trigger_indexing self' ;;
      ret self'
    else ret self'.

(** The block that stops the companion, as it stands in [signal_handler]
    (lines 123-132) and in the [finally] of [run_mcp_server_threaded]
    (lines 350-361); the two differ in their messages only. *)
Definition grace_period : Q := 5.

Definition stop_mcp_server (announce escalate : string) : M unit :=
  fun w =>
    match mcp_server_process w with
    | None => (Ret tt, w)
    | Some _ =>
        (r <- poll ;;
         match r with
         | Some _ => ret tt
         | None =>
             print announce ;;
             terminate ;;
             try_ (wait grace_period ;; ret tt)
                  [(is_TimeoutExpired, fun _ => print escalate ;; kill)]
         end) w
    end.

(** [signal_handler], the closure of [setup_signal_handlers] *)
Definition signal_handler (signum : Z) : M unit :=
  print "Received signal, shutting down..." ;;
  (fun w => (Ret tt, with_shutdown_event true w)) ;;
  (fun w => when (observer w) (do_ ObserverStop) w) ;;
  stop_mcp_server "Terminating MCP server..." "Force killing MCP server..." ;;
  sys_exit 0.

Definition setup_signal_handlers : M unit := do_ InstallHandlers.

(** [validate_paths]; [Path.resolve()] is the identity on the absolute paths
    of the model. *)
Definition validate_paths (watch_path app_target : string) : M (string * string) :=
  e <- path_exists watch_path ;;
  if negb e then raise FileNotFoundError else
  d <- path_is_dir watch_path ;;
  if negb d then raise NotADirectoryError else
  e' <- path_exists app_target ;;
  if negb e' then raise FileNotFoundError else
  ret (watch_path, app_target).

Record Args : Type := mkArgs {
  arg_watch_path : option string;
  arg_app_target : option string;
  arg_debounce_seconds : Q;
  mcp_server_only : bool;
  with_mcp_server : bool;
  address : string;
  flow_file : string;
  no_recursive : bool;
  initial_index : bool
}.

(** Truth value of an optional positional argument: [None] and the empty
    string are false. *)
Definition truthy (o : option string) : bool :=
  match o with
  | Some s => negb (is_empty s)
  | None => false
  end.

Definition server_cmd (exe flow_file address : string) : list string :=
  [exe; "-m"; "cocoindex.cli"; "server"; flow_file; "--address"; address].

Definition import_cmd (exe : string) : list string :=
  [exe; "-c"; "import cocoindex"].

(** [run_mcp_server] *)
Definition run_mcp_server (address flow_file : string) : M unit :=
  print ("Starting CocoIndex MCP server on " ++ address) ;;
  print ("Using flow file: " ++ flow_file) ;;
  present <- path_exists flow_file ;;
  if negb present then
    print ("Error: Flow file '" ++ flow_file ++ "' not found!") ;;
    print "Make sure your flow file is accessible from the current directory." ;;
    sys_exit 1
  else
    exe <- (fun w => (Ret (sys_executable w), w)) ;;
    try_ (subprocess_run (import_cmd exe) None true ;; ret tt)
         [(is_CalledProcessError,
           fun _ => print "Error: CocoIndex is not installed or not accessible!" ;;
                    sys_exit 1)] ;;
    let cmd := server_cmd exe flow_file address in
    print ("Executing: " ++ join_space cmd) ;;
    try_ (subprocess_run cmd None true ;; ret tt)
         [(is_CalledProcessError,
           fun e => print ("Error running MCP server: " ++ exn_str e) ;; sys_exit 1);
          (is_KeyboardInterrupt,
           fun _ => print "MCP server stopped by user." ;; sys_exit 0)].

(** The loop of lines 332-345; [fuel] bounds the iterations the model follows,
    and the loop that is still going when it runs out [Blocks]. *)
Fixpoint supervise (fuel : nat) : M unit :=
  match fuel with
  | O => blocks
  | S fuel' =>
      fun w =>
        if shutdown_event w then (Ret tt, w)
        else
          (r <- poll ;;
           match r with
           | Some _ =>
               out <- communicate ;;
               when (negb (is_empty (fst out))) (print ("MCP Server stdout: " ++ fst out)) ;;
               when (negb (is_empty (snd out))) (print ("MCP Server stderr: " ++ snd out))
           | None => sleep 0.1 ;; supervise fuel'
           end) w
  end.

(** [run_mcp_server_threaded] *)
Definition run_mcp_server_threaded (address flow_file : string) (fuel : nat) : M unit :=
  print ("Starting CocoIndex MCP server on " ++ address) ;;
  print ("Using flow file: " ++ flow_file) ;;
  present <- path_exists flow_file ;;
  if negb present then
    print ("Error: Flow file '" ++ flow_file ++ "' not found!") ;;
    print "Make sure your flow file is accessible from the current directory."
  else
    exe <- (fun w => (Ret (sys_executable w), w)) ;;
    importable <- try_ (subprocess_run (import_cmd exe) None true ;; ret true)
                       [(is_CalledProcessError,
                         fun _ => print "Error: CocoIndex is not installed or not accessible!" ;;
                                  ret false)] ;;
    if negb importable then ret tt
    else
      let cmd := server_cmd exe flow_file address in
      print ("Starting MCP server with command: " ++ join_space cmd) ;;
      finally
        (try_ (popen cmd ;; supervise fuel)
              [(is_Exception, fun e => print ("Error running MCP server: " ++ exn_str e))])
        (stop_mcp_server "Terminating MCP server process..."
                         "Force killing MCP server process...").

(** The loop of lines 445-446 once the observer's thread has ended: file
    events are no longer handled, a signal still runs [signal_handler] in
    the main thread. *)
Fixpoint wait_unobserved (pending : list input) : M unit :=
  fun w =>
    if shutdown_event w then (Ret tt, w)
    else
      match pending with
      | [] => (Blocks, w)
      | FsEvent _ _ :: rest => wait_unobserved rest (emit (Sleep 1) w)
      | Signal signum :: rest =>
          (signal_handler signum ;; wait_unobserved rest) (emit (Sleep 1) w)
      end.

(** The loop of lines 445-446 together with what happens meanwhile: the
    observer delivers an event to the handler, or a signal runs
    [signal_handler] in the main thread.  With nothing left to arrive the
    loop is still waiting.  The handler runs in the observer's thread, where
    nothing catches what it raises: a call that does not return ends that
    thread, the exception does not reach the main thread, and the loop goes
    on with no event handled any more. *)
Fixpoint wait_loop (self : CocoIndexEventHandler) (pending : list input) : M unit :=
  fun w =>
    if shutdown_event w then (Ret tt, w)
    else
      match pending with
      | [] => (Blocks, w)
      | FsEvent ev now :: rest =>
          match on_any_event self ev now (emit (Sleep 1) w) with
          | (Ret self', w') => wait_loop self' rest w'
          | (_, w') => wait_unobserved rest w'
          end
      | Signal signum :: rest =>
          (signal_handler signum ;; wait_loop self rest) (emit (Sleep 1) w)
      end.

Definition bool_str (b : bool) : string := if b then "True" else "False".

(** [main]; [args] is what [parse_arguments] returns. *)
Definition main (args : Args) (fuel : nat) : M unit :=
  if mcp_server_only args then run_mcp_server (address args) (flow_file args)
  else if negb (truthy (arg_watch_path args)) || negb (truthy (arg_app_target args)) then
    print "Error: watch_path and app_target are required unless using --mcp-server-only" ;;
    sys_exit 1
  else
    let wp := match arg_watch_path args with Some s => s | None => EmptyString end in
    let tgt := match arg_app_target args with Some s => s | None => EmptyString end in
    paths <- try_ (validate_paths wp tgt)
                  [((fun e => match e with
                              | FileNotFoundError | NotADirectoryError => true
                              | _ => false
                              end),
                    fun e => print ("Error: " ++ exn_str e) ;; sys_exit 1)] ;;
    let watch_path := fst paths in
    let app_target := snd paths in
    setup_signal_handlers ;;
    when (with_mcp_server args)
         (print "Starting MCP server thread..." ;;
          thread_start (run_mcp_server_threaded (address args) (flow_file args) fuel) ;;
          sleep 2) ;;
    let event_handler := init watch_path app_target (arg_debounce_seconds args) in
    available <- check_cocoindex_available ;;
    if negb available then
      print "Error: CocoIndex is not available. Please ensure it's installed and in PATH." ;;
      sys_exit 1
    else
      when (initial_index args)
           (print "Running initial indexing..." ;; trigger_indexing event_handler) ;;
      print ("Starting CocoIndex File Watcher"
             ++ (if with_mcp_server args then " + MCP Server" else EmptyString)) ;;
      print ("  Watch Path: " ++ watch_path) ;;
      print ("  App Target: " ++ app_target) ;;
      print ("  Recursive: " ++ bool_str (negb (no_recursive args))) ;;
      print "  Debounce" ;;
      when (with_mcp_server args)
           (print ("  MCP Server: " ++ address args) ;;
            print ("  Flow File: " ++ flow_file args)) ;;
      print "  Press Ctrl+C to stop" ;;
      (fun w => (Ret tt, with_observer true w)) ;;
      do_ (Schedule watch_path (negb (no_recursive args))) ;;
      finally
        (try_ (do_ ObserverStart ;;
               (fun w => wait_loop event_handler (inbox w) w))
              [(is_KeyboardInterrupt, fun _ => print "Keyboard interrupt received");
               (is_Exception, fun e => print ("Unexpected error: " ++ exn_str e))])
        ((fun w => (Ret tt, with_shutdown_event true w)) ;;
         (fun w => when (observer w) (do_ ObserverStop ;; do_ ObserverJoin) w) ;;
         (fun w => when (match mcp_server_thread w with Some alive => alive | None => false end)
                        (print "Waiting for MCP server thread to finish..." ;;
                         do_ ThreadJoin) w) ;;
         print "Services stopped").

Local Close Scope string_scope.

End StandaloneWatcher.

(** ** [watch_and_index.py], the container entry point *)

Module WatchAndIndex.

Local Open Scope string_scope.

Definition WATCH_PATH : string := "/data_to_index".

Definition environ_get (key default : string) : M string :=
  fun w => (Ret (match environ w key with Some v => v | None => default end), w).

Definition APP_TARGET : M string := environ_get "APP_TARGET" "python/cocoindex/cli.py".
Definition MCP_ADDRESS : M string := environ_get "ADDRESS" "0.0.0.0:8000".

Definition index_cmd : list string :=
  ["python"; "-m"; "cocoindex.cli"; "index"; WATCH_PATH].

Definition server_cmd (app_target address : string) : list string :=
  ["python"; "-m"; "cocoindex.cli"; "server"; app_target; "--address"; address].

(** [IndexingEventHandler.on_any_event] *)
Definition on_any_event (ev : event) : M unit :=
  if is_directory ev then ret tt
  else
    print ("Change detected: " ++ src_path ev ++ ". Triggering indexing...") ;;
    try_ (subprocess_run index_cmd None true ;;
          print "Indexing completed successfully.")
         [(is_Exception, fun e => print ("Error during indexing: " ++ exn_str e))].

(** [start_mcp_server] *)
Definition start_mcp_server : M unit :=
  try_ (addr <- MCP_ADDRESS ;;
        print ("Starting MCP server on " ++ addr ++ "...") ;;
        tgt <- APP_TARGET ;;
        subprocess_run (server_cmd tgt addr) None true ;;
        ret tt)
       [(is_Exception,
         fun e => print ("Error starting MCP server: " ++ exn_str e) ;; os_exit 1)].

(** [signal_handler] *)
Definition signal_handler (signum : Z) : M unit :=
  print "Received signal. Shutting down..." ;;
  sys_exit 0.

(** [os.makedirs(path, exist_ok=True)] *)
Definition makedirs (p : string) : M unit :=
  fun w =>
    if makedirs_ok w
    then (Ret tt, with_fs (fun q => if String.eqb q p then Some Dir else fs w q)
                          (emit (Makedirs p) w))
    else (Raise PermissionError, emit (Makedirs p) w).

(** [while True: time.sleep(1)] and what happens meanwhile; [delivering]
    is false once a handler call has not returned: it keeps the observer's
    thread, and no later event is handled. *)
Fixpoint forever (delivering : bool) (pending : list input) : M unit :=
  match pending with
  | [] => blocks
  | FsEvent ev _ :: rest =>
      if delivering then
        fun w =>
          match on_any_event ev (emit (Sleep 1) w) with
          | (Blocks, w') => forever false rest w'
          | (_, w') => forever true rest w'
          end
      else sleep 1 ;; forever false rest
  | Signal signum :: rest =>
      sleep 1 ;; signal_handler signum ;; forever delivering rest
  end.

(** [start_file_watcher] *)
Definition start_file_watcher : M unit :=
  try_ (print ("Starting file watcher for " ++ WATCH_PATH ++ "...") ;;
        present <- path_exists WATCH_PATH ;;
        when (negb present)
             (print ("Creating watch directory: " ++ WATCH_PATH) ;;
              makedirs WATCH_PATH) ;;
        do_ (Schedule WATCH_PATH true) ;;
        do_ ObserverStart ;;
        print ("File watcher started. Monitoring " ++ WATCH_PATH ++ " for changes...") ;;
        try_ (fun w => forever true (inbox w) w)
             [(is_KeyboardInterrupt,
               fun _ => print "Stopping file watcher..." ;; do_ ObserverStop)] ;;
        do_ ObserverJoin)
       [(is_Exception,
         fun e => print ("Error in file watcher: " ++ exn_str e) ;; os_exit 1)].

(** [main] *)
Definition main : M unit :=
  print "Starting Cocoa Index with both file watcher and MCP server..." ;;
  do_ InstallHandlers ;;
  thread_start start_mcp_server ;;
  sleep 2 ;;
  print "MCP server started in background thread." ;;
  start_file_watcher.

Local Close Scope string_scope.

End WatchAndIndex.

(** ** [on_any_event] called from several threads

    The calls of [CocoIndexEventHandler.on_any_event] interleave at the
    granularity of the source lines; [self.lock] is explicit. *)

Module Threads.

Import StandaloneWatcher.

Inductive pc : Type :=
| Idle                  (* not inside [on_any_event] *)
| Waiting (t : Q)       (* line 52: [current_time = t] read, wants [self.lock] *)
| Holding (t : Q)       (* line 53: inside [with self.lock], before the test *)
| Stored (t : Q)        (* after line 55, the lock still held *)
| Indexing (t : Q).     (* lines 57-60: the lock released, [trigger_indexing] runs *)

Record state : Type := mkState {
  handler : CocoIndexEventHandler;   (* the one object all calls share *)
  locked : bool;                     (* [self.lock] *)
  pcs : nat -> pc
}.

Definition upd (f : nat -> pc) (i : nat) (p : pc) : nat -> pc :=
  fun j => if Nat.eqb j i then p else f j.

Inductive label : Type :=
| Deliver (i : nat) (ev : event) (t : Q)   (* thread [i] is called; its clock reading *)
| Step (i : nat).                          (* thread [i] goes on to its next line *)

(** One step; [None] when the step is not possible (a thread that is not
    idle cannot be called, [with self.lock] waits while the lock is held). *)
Definition step (s : state) (l : label) : option state :=
  match l with
  | Deliver i ev t =>
      match pcs s i with
      | Idle =>
          if is_directory ev then Some s
          else Some (mkState (handler s) (locked s) (upd (pcs s) i (Waiting t)))
      | _ => None
      end
  | Step i =>
      match pcs s i with
      | Idle => None
      | Waiting t =>
          if locked s then None
          else Some (mkState (handler s) true (upd (pcs s) i (Holding t)))
      | Holding t =>
          let (go, h') := debounce (handler s) t in
          if go then Some (mkState h' (locked s) (upd (pcs s) i (Stored t)))
          else Some (mkState h' false (upd (pcs s) i Idle))
      | Stored t => Some (mkState (handler s) false (upd (pcs s) i (Indexing t)))
      | Indexing t => Some (mkState (handler s) (locked s) (upd (pcs s) i Idle))
      end
  end.

Fixpoint exec (s : state) (ls : list label) : option state :=
  match ls with
  | [] => Some s
  | l :: ls' =>
      match step s l with
      | Some s' => exec s' ls'
      | None => None
      end
  end.

Definition start (h : CocoIndexEventHandler) : state :=
  mkState h false (fun _ => Idle).

Definition in_lock (p : pc) : bool :=
  match p with Holding _ | Stored _ => true | _ => false end.

Definition indexing (p : pc) : bool :=
  match p with Indexing _ => true | _ => false end.

(** The clock reading a call was accepted with. *)
Definition accepted_at (p : pc) : option Q :=
  match p with Stored t | Indexing t => Some t | _ => None end.

(** Indexing runs in flight among the threads [0 .. n-1]. *)
Fixpoint runs_in_flight (s : state) (n : nat) : nat :=
  match n with
  | O => O
  | S n' => ((if indexing (pcs s n') then 1 else 0) + runs_in_flight s n')%nat
  end.

End Threads.

Import StandaloneWatcher.

(** Consecutive readings at least [w] apart, the first one at least [w] after [prev]. *)
Fixpoint spaced (w prev : Q) (ts : list Q) : Prop :=
  match ts with
  | [] => True
  | t :: ts' => w <= t - prev /\ spaced w t ts'
  end.

(** ** Vocabulary of the statements *)

Local Open Scope string_scope.

(** The version call answers in time with status 0. *)
Definition probe_ok (o : proc_outcome) : bool :=
  match o with
  | Exits d rc _ _ => negb (Qltb 10 d) && (rc =? 0)%Z
  | _ => false
  end.

(** The command runs longer than [limit] seconds. *)
Definition timed_out (limit : Q) (o : proc_outcome) : bool :=
  match o with
  | Exits d _ _ _ => Qltb limit d
  | Never => true
  | _ => false
  end.

(** The indexing run that starts in [w] gets as far as the message of line
    90, on a standard output that cannot encode it: the version call
    succeeds and the update command times out. *)
Definition escapes (self : CocoIndexEventHandler) (w : World) : bool :=
  negb (stdout_unicode w)
  && probe_ok (oracle w (nruns w) probe_cmd)
  && timed_out 300 (oracle w (S (nruns w)) (update_cmd (app_target self))).

(** What the log holds after an indexing run on a standard output that has
    the pictographs, by what the version call and the update command did. *)
Definition logged (probe update : proc_outcome) (tr : list effect) : Prop :=
  match probe with
  | Denied => In (Print ("Error during indexing: " ++ exn_str PermissionError)) tr
  | _ =>
      if probe_ok probe then
        match update with
        | Exits d rc out err =>
            if Qltb 300 d
            then In (Print (stopwatch ++ "  Indexing timed out after 5 minutes")) tr
            else if (rc =? 0)%Z
            then In (Print (check_mark ++ " Indexing completed successfully")) tr
            else In (Print (cross_mark ++ " Indexing failed")) tr /\
                 In (Print ("Error: " ++ strip err)) tr
        | Never => In (Print (stopwatch ++ "  Indexing timed out after 5 minutes")) tr
        | NotFound => In (Print ("Error during indexing: " ++ exn_str FileNotFoundError)) tr
        | Denied => In (Print ("Error during indexing: " ++ exn_str PermissionError)) tr
        end
      else
        In (Print "Error: CocoIndex is not available. Please ensure it's installed and in PATH.") tr
  end.

(** The version call fails whenever it is made: the backend is absent. *)
Definition unavailable (w : World) : Prop :=
  forall n, probe_ok (oracle w n probe_cmd) = false.

Fixpoint cmd_eqb (a b : list string) : bool :=
  match a, b with
  | [], [] => true
  | x :: a', y :: b' => String.eqb x y && cmd_eqb a' b'
  | _, _ => false
  end.

(** The version calls in a log. *)
Definition is_probe (e : effect) : bool :=
  match e with
  | Run cmd _ => cmd_eqb cmd probe_cmd
  | _ => false
  end.

Definition probes (tr : list effect) : nat := List.length (filter is_probe tr).

(** Time spent waiting or sleeping in a log. *)
Fixpoint blocked (tr : list effect) : Q :=
  match tr with
  | [] => 0
  | Waited d :: tr' => d + blocked tr'
  | Sleep d :: tr' => d + blocked tr'
  | _ :: tr' => blocked tr'
  end.

(** Effects that neither signal the child nor wait for it. *)
Definition quiet (e : effect) : Prop :=
  match e with
  | Terminate | Kill | Waited _ => False
  | _ => True
  end.

(** The child behind the global, if there is one, has been reaped. *)
Definition reaped (w : World) : Prop :=
  match mcp_server_process w with
  | Some p => exists rc, status p = Exited rc
  | None => True
  end.

Definition is_print (e : effect) : Prop :=
  match e with Print _ => True | _ => False end.

(** The shapes of what the supervision loop logs: polls that find the child
    running, each followed by the sleep of a tenth of a second; then either
    nothing more (shutdown was requested, or the loop is still going), or the
    poll that finds the child gone, the one read of its pipes, and the
    printing of what was read. *)
Inductive supervision_log : list effect -> Prop :=
| sup_end : supervision_log []
| sup_wait (tr : list effect) :
    supervision_log tr -> supervision_log (Poll None :: Sleep 0.1 :: tr)
| sup_read (rc : Z) (prints : list effect) :
    Forall is_print prints -> supervision_log (Poll (Some rc) :: Communicate :: prints).

(** A log in which the pipes are read for the first time right after the
    exit of the child has been seen. *)
Definition wait_then_read (tr : list effect) : Prop :=
  exists pre rc post,
    tr = (pre ++ Poll (Some rc) :: Communicate :: post)%list /\ ~ In Communicate pre.

(** [n] rounds of the loop with the child still running. *)
Fixpoint waits (n : nat) : list effect :=
  match n with
  | O => []
  | S n' => Poll None :: Sleep 0.1 :: waits n'
  end.

(** *** Invariants of the interleaved calls *)

(** Only a call inside [with self.lock] holds the lock, and at most one is
    inside. *)
Definition mutex (s : Threads.state) : Prop :=
  (forall i, Threads.in_lock (Threads.pcs s i) = true -> Threads.locked s = true) /\
  (forall i j, Threads.in_lock (Threads.pcs s i) = true ->
               Threads.in_lock (Threads.pcs s j) = true -> i = j).

(** The accepted calls still under way carry readings that are not after
    the stored timestamp and are a window apart from each other. *)
Definition separated (s : Threads.state) : Prop :=
  (forall i t, Threads.accepted_at (Threads.pcs s i) = Some t ->
               t <= last_trigger_time (Threads.handler s)) /\
  (forall i j ti tj, i <> j ->
     Threads.accepted_at (Threads.pcs s i) = Some ti ->
     Threads.accepted_at (Threads.pcs s j) = Some tj ->
     debounce_seconds (Threads.handler s) <= ti - tj \/
     debounce_seconds (Threads.handler s) <= tj - ti).

(** Nothing of the session but the log and the count of launched commands
    has changed. *)
Definition same_session (w w' : World) : Prop :=
  stdout_unicode w' = stdout_unicode w /\
  fs w' = fs w /\ oracle w' = oracle w /\ inbox w' = inbox w /\
  shutdown_event w' = shutdown_event w /\ observer w' = observer w /\
  mcp_server_process w' = mcp_server_process w /\
  mcp_server_thread w' = mcp_server_thread w.

(** The log of [w'] is that of [w] with effects satisfying [P] appended; the
    external commands behave as before and the shutdown flag is as it was. *)
Definition grows (P : effect -> Prop) (w w' : World) : Prop :=
  (oracle w' = oracle w /\ shutdown_event w' = shutdown_event w) /\
  exists tr, trace w' = (trace w ++ tr)%list /\ Forall P tr.

(** Effects other than the start of the observer. *)
Definition not_watching (e : effect) : Prop := e <> ObserverStart.

(** A computation that only logs effects satisfying [P] and ends the process
    with [os._exit n] only when [E n]. *)
Definition tame (P : effect -> Prop) (E : Z -> Prop) {A} (c : M A) : Prop :=
  forall w, grows P w (snd (c w)) /\ forall n, fst (c w) = OsExit n -> E n.

(** ** Sample sessions *)

Definition sample_fs (p : string) : option node :=
  if String.eqb p "/w" then Some Dir
  else if String.eqb p "/w/main.py" then Some File
  else if String.eqb p "flows.py" then Some File
  else None.

Definition empty_fs (p : string) : option node := None.

(** Every command ends after a second with status 0. *)
Definition backend_ok (n : nat) (cmd : list string) : proc_outcome :=
  Exits 1 0 "done" EmptyString.

(** No command can be found. *)
Definition backend_absent (n : nat) (cmd : list string) : proc_outcome := NotFound.

Definition session (files : string -> option node)
    (commands : nat -> list string -> proc_outcome)
    (server : option child) (arrivals : list input) : World :=
  mkWorld files true (fun _ => None) true "python3" commands 0 server arrivals
          false false None None [].

(** The same on a standard output that cannot encode the pictographs (a
    console or a redirected output in a legacy code page). *)
Definition legacy_session (files : string -> option node)
    (commands : nat -> list string -> proc_outcome)
    (server : option child) (arrivals : list input) : World :=
  mkWorld files true (fun _ => None) false "python3" commands 0 server arrivals
          false false None None [].

(** The version call answers at once; every other command never ends. *)
Definition backend_hangs (n : nat) (cmd : list string) : proc_outcome :=
  if cmd_eqb cmd probe_cmd then Exits 1 0 EmptyString EmptyString
  else Never.

(** Every command ends after a second, the version call with status 0 and
    the others with status 1. *)
Definition backend_fails (n : nat) (cmd : list string) : proc_outcome :=
  if cmd_eqb cmd probe_cmd then Exits 1 0 EmptyString EmptyString
  else Exits 1 1 EmptyString "boom".

(** A server that is gone at the second poll, with status 1. *)
Definition crashing_server : child :=
  mkChild (Some 1%nat) 1 EmptyString "Traceback" (Some 1).

(** A server that runs for good and ignores the graceful-stop signal. *)
Definition stubborn_server : child :=
  mkChild None 0 EmptyString EmptyString None.

(** A server that runs for good and stops a second after the signal. *)
Definition obedient_server : child :=
  mkChild None 0 EmptyString EmptyString (Some 1).

Definition watch_args : Args :=
  mkArgs (Some "/w") (Some "/w/main.py") 2 false false "0.0.0.0:8000" "flows.py" false false.

Definition combined_args : Args :=
  mkArgs (Some "/w") (Some "/w/main.py") 2 false true "0.0.0.0:8000" "flows.py" false false.


Definition server_only_args : Args :=
  mkArgs None None 2 true false "0.0.0.0:8000" "flows.py" false false.

Definition a_file_event : event := mkEvent false "/w/a.txt".

(** *** Vocabulary of the further properties *)

Definition is_signal (i : input) : bool :=
  match i with Signal _ => true | FsEvent _ _ => false end.


Definition is_start (e : effect) : bool :=
  match e with
  | Print s => String.eqb s "Starting indexing..."
  | _ => false
  end.

(** The indexing runs started in a log. *)
Definition starts (tr : list effect) : nat := List.length (filter is_start tr).

Definition is_run (e : effect) : bool :=
  match e with Run _ _ => true | _ => false end.

(** The external commands run in a log, in order. *)
Definition commands (tr : list effect) : list effect := filter is_run tr.

(** While the lock is held, some call is inside [with self.lock]. *)
Definition lock_owned (s : Threads.state) : Prop :=
  Threads.locked s = true -> exists i, Threads.in_lock (Threads.pcs s i) = true.

(** What a handler call, a sleep or a message adds to a log. *)
Definition handler_effect (e : effect) : Prop :=
  match e with
  | Print _ | Run _ _ | Sleep _ => True
  | _ => False
  end.

(** Effects that neither stop or join the observer nor create a directory. *)
Definition no_cleanup (e : effect) : Prop :=
  e <> ObserverStop /\ e <> ObserverJoin /\ forall p, e <> Makedirs p.

Local Close Scope string_scope.

(** * Properties *)

Local Open Scope string_scope.

Lemma Qltb_lt (a b : Q) : Qltb a b = true <-> a < b.
Proof.
  unfold Qltb. rewrite negb_true_iff.
  split; intro H.
  - apply Qnot_le_lt. intro Hle. apply Qle_bool_iff in Hle. congruence.
  - destruct (Qle_bool b a) eqn:E; [|reflexivity].
    apply Qle_bool_iff in E. lra.
Qed.

Lemma Qltb_ge (a b : Q) : Qltb a b = false <-> b <= a.
Proof.
  unfold Qltb. rewrite negb_false_iff. apply Qle_bool_iff.
Qed.

Lemma debounce_accept_iff (h : CocoIndexEventHandler) (now : Q) :
  fst (debounce h now) = true <-> debounce_seconds h <= now - last_trigger_time h.
Proof.
  unfold debounce.
  destruct (Qltb (now - last_trigger_time h) (debounce_seconds h)) eqn:E; simpl.
  - apply Qltb_lt in E. split; [discriminate | lra].
  - apply Qltb_ge in E. tauto.
Qed.

Lemma debounce_reject_unchanged (h : CocoIndexEventHandler) (now : Q) :
  fst (debounce h now) = false -> snd (debounce h now) = h.
Proof.
  unfold debounce.
  destruct (Qltb (now - last_trigger_time h) (debounce_seconds h)); simpl;
    [reflexivity | discriminate].
Qed.

Lemma debounce_accept_stores (h : CocoIndexEventHandler) (now : Q) :
  fst (debounce h now) = true -> snd (debounce h now) = set_last_trigger_time h now.
Proof.
  unfold debounce.
  destruct (Qltb (now - last_trigger_time h) (debounce_seconds h)); simpl;
    [discriminate | reflexivity].
Qed.

Lemma debounce_keeps_window (h : CocoIndexEventHandler) (now : Q) :
  debounce_seconds (snd (debounce h now)) = debounce_seconds h.
Proof.
  unfold debounce.
  destruct (Qltb (now - last_trigger_time h) (debounce_seconds h)); reflexivity.
Qed.

Lemma last_cons {A} (a d : A) (l : list A) : last (a :: l) d = last l a.
Proof.
  revert a d. induction l as [|b l IH]; intros a d; [reflexivity|].
  change (last (a :: b :: l) d) with (last (b :: l) d).
  rewrite (IH b d), (IH b a). reflexivity.
Qed.

Lemma after_calls_keeps_window (ts : list Q) (h : CocoIndexEventHandler) :
  debounce_seconds (after_calls h ts) = debounce_seconds h.
Proof.
  revert h. induction ts as [|t ts IH]; intro h; simpl; [reflexivity|].
  rewrite IH. apply debounce_keeps_window.
Qed.

(** The stored timestamp is the reading of the last accepted call, and the
    initial one while no call has been accepted. *)
Lemma after_calls_last_accepted (ts : list Q) (h : CocoIndexEventHandler) :
  last_trigger_time (after_calls h ts) = last (accepted h ts) (last_trigger_time h).
Proof.
  revert h. induction ts as [|t ts IH]; intro h; simpl; [reflexivity|].
  destruct (fst (debounce h t)) eqn:E.
  - rewrite last_cons, IH, (debounce_accept_stores _ _ E). reflexivity.
  - rewrite IH, (debounce_reject_unchanged _ _ E). reflexivity.
Qed.

(** Every accepted reading of a sequence that does not go back before the
    stored timestamp is a window after that timestamp. *)
Lemma accepted_after_last (ts : list Q) (h : CocoIndexEventHandler) :
  StronglySorted Qle ts ->
  Forall (fun t => last_trigger_time h <= t) ts ->
  Forall (fun b => debounce_seconds h <= b - last_trigger_time h) (accepted h ts).
Proof.
  revert h. induction ts as [|t ts IH]; intros h Hs Hl; simpl; [constructor|].
  inversion Hs as [|? ? Hs' Hle]; subst. inversion Hl as [|? ? Hlt Hl']; subst.
  destruct (fst (debounce h t)) eqn:E.
  - constructor; [apply debounce_accept_iff; exact E|].
    specialize (IH (snd (debounce h t)) Hs').
    rewrite (debounce_accept_stores _ _ E) in *. simpl in IH.
    eapply Forall_impl; [|apply IH; exact Hle].
    simpl. intros b Hb. lra.
  - rewrite (debounce_reject_unchanged _ _ E). apply IH; assumption.
Qed.

Lemma accepted_pairwise_apart (ts : list Q) (h : CocoIndexEventHandler) :
  StronglySorted Qle ts ->
  ForallOrdPairs (fun a b => debounce_seconds h <= b - a) (accepted h ts).
Proof.
  revert h. induction ts as [|t ts IH]; intros h Hs; simpl; [constructor|].
  inversion Hs as [|? ? Hs' Hle]; subst.
  destruct (fst (debounce h t)) eqn:E.
  - constructor.
    + pose proof (accepted_after_last ts (snd (debounce h t)) Hs') as H.
      rewrite (debounce_accept_stores _ _ E) in *. simpl in H.
      apply H. exact Hle.
    + rewrite <- (debounce_keeps_window h t). apply IH. exact Hs'.
  - rewrite <- (debounce_keeps_window h t). apply IH. exact Hs'.
Qed.

Lemma spaced_all_accepted (ts : list Q) (h : CocoIndexEventHandler) :
  spaced (debounce_seconds h) (last_trigger_time h) ts -> accepted h ts = ts.
Proof.
  revert h. induction ts as [|t ts IH]; intros h Hsp; simpl; [reflexivity|].
  destruct Hsp as [Hgap Hrest].
  assert (E : fst (debounce h t) = true) by (apply debounce_accept_iff; exact Hgap).
  rewrite E. f_equal. apply IH.
  rewrite (debounce_accept_stores _ _ E). simpl. exact Hrest.
Qed.

Ltac Qle_by_computation :=
  unfold Qle; simpl; let Hcmp := fresh in intro Hcmp; discriminate Hcmp.

(** ** C2: the debounce gate over a sequence of calls *)

(** C2, as stated, fails on a fresh handler: with the default window of two
    seconds, calls at clock readings 1 and 3 are two seconds apart and in
    order, yet the first one is rejected, because the stored timestamp starts
    at 0 and [1 - 0 < 2]. *)
Lemma spaced_pair_first_rejected :
  let h := init "/w" "/w/main.py" default_debounce_seconds in
  StronglySorted Qle [1; 3] /\
  debounce_seconds h <= 3 - 1 /\
  accepts h [1; 3] = [false; true].
Proof.
  simpl. split; [|split].
  - repeat constructor. Qle_by_computation.
  - Qle_by_computation.
  - reflexivity.
Qed.

(** C2, amended.  For calls with non-decreasing clock readings: the call
    that follows is accepted exactly when a window has elapsed since the
    stored timestamp, which is the reading of the last accepted call, or the
    initial timestamp while none has been accepted; a rejected call leaves
    the handler as it was; any two accepted readings are a window apart; and
    when the first reading is a window after the initial timestamp and every
    reading a window after the one before, all calls are accepted. *)
Theorem debounce_gate_spacing (h : CocoIndexEventHandler) (ts : list Q)
  (Hclock : StronglySorted Qle ts) :
  let w := debounce_seconds h in
  let h' := after_calls h ts in
  (forall now, fst (debounce h' now) = true <->
               w <= now - last (accepted h ts) (last_trigger_time h)) /\
  (forall now, fst (debounce h' now) = false -> snd (debounce h' now) = h') /\
  ForallOrdPairs (fun a b => w <= b - a) (accepted h ts) /\
  (spaced w (last_trigger_time h) ts -> accepted h ts = ts).
Proof.
  intros w h'. repeat split.
  - intro H. apply debounce_accept_iff in H. subst h' w.
    rewrite after_calls_keeps_window, after_calls_last_accepted in H. exact H.
  - intro H. apply debounce_accept_iff. subst h' w.
    rewrite after_calls_keeps_window, after_calls_last_accepted. exact H.
  - apply debounce_reject_unchanged.
  - apply accepted_pairwise_apart. exact Hclock.
  - apply spaced_all_accepted.
Qed.

Lemma debounce_gate_spacing_witness :
  let h := init "/w" "/w/main.py" 2 in
  StronglySorted Qle [3; 4; 6] /\
  accepted h [3; 4; 6] = [3; 6] /\
  ForallOrdPairs (fun a b => 2 <= b - a) (accepted h [3; 4; 6]).
Proof.
  assert (Hs : StronglySorted Qle [3; 4; 6]).
  { repeat constructor; Qle_by_computation. }
  split; [exact Hs|]. split; [reflexivity|].
  exact (proj1 (proj2 (proj2 (debounce_gate_spacing (init "/w" "/w/main.py" 2) [3; 4; 6] Hs)))).
Defined.

(** ** C5: the first call *)

(** C5, as stated, fails: the stored timestamp starts at 0, not at minus
    infinity.  With [--debounce-seconds 2000000000] the first event of a
    session whose clock reads 1762000000 is rejected. *)
Lemma first_call_rejected :
  debounce (init "/w" "/w/main.py" 2000000000) 1762000000
  = (false, init "/w" "/w/main.py" 2000000000).
Proof. reflexivity. Qed.

(** C5, amended.  The first call on a new handler is accepted exactly when
    the clock reading is at least the window: the initial timestamp is 0. *)
Theorem first_call_accepted_iff (wp tgt : string) (window now : Q) :
  fst (debounce (init wp tgt window) now) = true <-> window <= now.
Proof.
  rewrite debounce_accept_iff. simpl. split; intro H; lra.
Qed.

(** ** C6: failures of an indexing run and [trigger_indexing] *)

Lemma bind_ret_eq {A B} (c : M A) (k : A -> M B) (w w' : World) (a : A) :
  c w = (Ret a, w') -> bind c k w = k a w'.
Proof. intro H. unfold bind. rewrite H. reflexivity. Qed.

Lemma bind_raise_eq {A B} (c : M A) (k : A -> M B) (w w' : World) (e : exn) :
  c w = (Raise e, w') -> bind c k w = (Raise e, w').
Proof. intro H. unfold bind. rewrite H. reflexivity. Qed.

(** The cases of one run: the standard output, the version call, the update
    command; [leaf] closes each. *)
Ltac run_cases self w leaf :=
  unfold trigger_indexing, check_cocoindex_available, try_, bind, print, print_pictograph,
    subprocess_run, escapes, timed_out, probe_ok, when, ret;
  simpl;
  destruct (stdout_unicode w) eqn:Euni;
  (destruct (oracle w (nruns w) probe_cmd) as [d rc out err| | |] eqn:Ep; simpl;
   [destruct (Qltb 10 d) eqn:Ed; simpl;
    [|destruct (rc =? 0)%Z eqn:Erc; simpl;
      [destruct (oracle w (S (nruns w)) (update_cmd (app_target self)))
         as [d' rc' out' err'| | |] eqn:Eu; simpl;
       [destruct (Qltb 300 d') eqn:Ed'; simpl;
        [|destruct (rc' =? 0)%Z eqn:Erc'; simpl;
          [destruct (is_empty (strip out')) eqn:Eout; simpl|]]
       | | |]
      |]]
   | | |]);
  repeat (progress (simpl; rewrite ?Euni)); leaf.

Ltac close_run :=
  repeat split; eexists; rewrite <- !app_assoc; (split; [reflexivity|]); simpl; tauto.

Lemma trigger_indexing_same_session (self : CocoIndexEventHandler) (w : World) :
  same_session w (snd (trigger_indexing self w)).
Proof. unfold same_session. run_cases self w ltac:(repeat split). Qed.

Lemma trigger_indexing_result (self : CocoIndexEventHandler) (w : World) :
  fst (trigger_indexing self w)
  = if escapes self w then Raise UnicodeEncodeError else Ret tt.
Proof. run_cases self w ltac:(reflexivity). Qed.

Lemma trigger_indexing_returns (self : CocoIndexEventHandler) (w : World) :
  stdout_unicode w = true ->
  fst (trigger_indexing self w) = Ret tt /\
  same_session w (snd (trigger_indexing self w)) /\
  exists tr,
    trace (snd (trigger_indexing self w)) = (trace w ++ tr)%list /\
    logged (oracle w (nruns w) probe_cmd)
           (oracle w (S (nruns w)) (update_cmd (app_target self))) tr.
Proof.
  intro Hu. split; [|split; [apply trigger_indexing_same_session|]].
  { rewrite trigger_indexing_result. unfold escapes. rewrite Hu. reflexivity. }
  revert Hu. unfold logged.
  run_cases self w ltac:(intro Hu; try discriminate Hu;
                         eexists; rewrite <- ?app_assoc; (split; [reflexivity|]);
                         simpl; tauto).
Qed.

Lemma trigger_indexing_probes_first (self : CocoIndexEventHandler) (w : World) :
  exists tr,
    trace (snd (trigger_indexing self w))
    = (trace w ++ Print "Starting indexing..." :: Run probe_cmd (Some 10) :: tr)%list /\
    (probe_ok (oracle w (nruns w) probe_cmd) = false ->
     (forall t, ~ In (Run (update_cmd (app_target self)) t) tr) /\
     tr = [Print (match oracle w (nruns w) probe_cmd with
                  | Denied => "Error during indexing: " ++ exn_str PermissionError
                  | _ => "Error: CocoIndex is not available. Please ensure it's installed and in PATH."
                  end)]).
Proof.
  run_cases self w
    ltac:(eexists; rewrite <- ?app_assoc; (split; [reflexivity|]);
          let Hf := fresh in
          intro Hf; try discriminate Hf;
          (split; [|reflexivity]);
          let t := fresh in let Hin := fresh in
          intros t Hin; simpl in Hin;
          repeat (destruct Hin as [Hin|Hin]; [discriminate Hin|]); exact Hin).
Qed.

Lemma on_any_event_returns (self : CocoIndexEventHandler) (ev : event) (now : Q) (w : World) :
  stdout_unicode w = true ->
  fst (on_any_event self ev now w)
  = Ret (if is_directory ev then self else snd (debounce self now)).
Proof.
  intro Hu. unfold on_any_event.
  destruct (is_directory ev); [reflexivity|].
  destruct (debounce self now) as [go self'] eqn:E.
  destruct go; [|reflexivity].
  rewrite (bind_ret_eq _ _ w (emit (Print ("Change detected: " ++ src_path ev)) w) tt)
    by reflexivity.
  pose proof (trigger_indexing_returns self' (emit (Print ("Change detected: " ++ src_path ev)) w)
                Hu) as [Hr _].
  destruct (trigger_indexing self' (emit (Print ("Change detected: " ++ src_path ev)) w))
    as [r w'] eqn:Et.
  simpl in Hr. subst r.
  rewrite (bind_ret_eq _ _ _ _ _ Et). reflexivity.
Qed.

Lemma escapes_debounce (self : CocoIndexEventHandler) (now : Q) (w : World) :
  escapes (snd (debounce self now)) w = escapes self w.
Proof.
  unfold escapes, debounce.
  destruct (Qltb (now - last_trigger_time self) (debounce_seconds self)); reflexivity.
Qed.

Lemma on_any_event_accepted (self : CocoIndexEventHandler) (ev : event) (now : Q) (w : World) :
  is_directory ev = false -> fst (debounce self now) = true ->
  exists tr,
    fst (on_any_event self ev now w)
    = (if escapes (snd (debounce self now)) w then Raise UnicodeEncodeError
       else Ret (snd (debounce self now))) /\
    trace (snd (on_any_event self ev now w))
    = (trace w ++ Print ("Change detected: " ++ src_path ev)
         :: Print "Starting indexing..." :: Run probe_cmd (Some 10) :: tr)%list.
Proof.
  intros Hfile Hgo. unfold on_any_event. rewrite Hfile.
  destruct (debounce self now) as [go self'] eqn:E. cbn [fst snd] in *. subst go.
  set (w1 := emit (Print ("Change detected: " ++ src_path ev)) w).
  rewrite (bind_ret_eq (print ("Change detected: " ++ src_path ev)) _ w w1 tt eq_refl).
  destruct (trigger_indexing_probes_first self' w1) as (tr & Htr & _).
  pose proof (trigger_indexing_result self' w1) as Hr.
  change (escapes self' w1) with (escapes self' w) in Hr.
  destruct (trigger_indexing self' w1) as [r w2] eqn:Et.
  cbn [fst snd] in *. exists tr.
  destruct (escapes self' w); subst r.
  - rewrite (bind_raise_eq _ _ _ _ _ Et). cbn [fst snd].
    split; [reflexivity|]. rewrite Htr. unfold w1. cbn [trace emit].
    rewrite <- app_assoc. reflexivity.
  - rewrite (bind_ret_eq _ _ _ _ _ Et). cbn [fst snd ret].
    split; [reflexivity|]. rewrite Htr. unfold w1. cbn [trace emit].
    rewrite <- app_assoc. reflexivity.
Qed.

(** C6.  On a standard output that has the pictographs of its messages,
    [trigger_indexing] returns whatever the version call and the update
    command do (time out, end with a nonzero status, fail to start): the
    outcome is in the log (a nonzero status with the captured error output),
    the session is otherwise as before, the next event is handled as the
    gate decides, and an accepted one starts a run.  On a standard output
    that has not, a run that gets as far as the update command does not log
    its outcome: when the command times out, the message of line 90 raises
    [UnicodeEncodeError] inside the [except] clause and the exception leaves
    [trigger_indexing], and [on_any_event] with it; when the command ends in
    time, with status 0 or not, the message of line 80 or 85 raises inside
    the [try], and all that is logged is the error of the encoding. *)
Theorem trigger_indexing_absorbs_failures (self : CocoIndexEventHandler) (w : World) :
  let r := trigger_indexing self w in
  (stdout_unicode w = true ->
   fst r = Ret tt /\
   (exists tr,
      trace (snd r) = (trace w ++ tr)%list /\
      logged (oracle w (nruns w) probe_cmd)
             (oracle w (S (nruns w)) (update_cmd (app_target self))) tr) /\
   same_session w (snd r) /\
   (forall ev now,
      fst (on_any_event self ev now (snd r))
      = Ret (if is_directory ev then self else snd (debounce self now))) /\
   (forall ev now,
      is_directory ev = false -> fst (debounce self now) = true ->
      exists tr,
        trace (snd (on_any_event self ev now (snd r)))
        = (trace (snd r) ++ Print ("Change detected: " ++ src_path ev)
             :: Print "Starting indexing..." :: Run probe_cmd (Some 10) :: tr)%list)) /\
  (stdout_unicode w = false ->
   probe_ok (oracle w (nruns w) probe_cmd) = true ->
   (timed_out 300 (oracle w (S (nruns w)) (update_cmd (app_target self))) = true ->
    fst r = Raise UnicodeEncodeError /\
    trace (snd r)
    = (trace w ++ [Print "Starting indexing...";
                   Run probe_cmd (Some 10);
                   Run (update_cmd (app_target self)) (Some 300)])%list /\
    forall ev now,
      is_directory ev = false -> fst (debounce self now) = true ->
      fst (on_any_event self ev now w) = Raise UnicodeEncodeError) /\
   (forall d rc out err,
      oracle w (S (nruns w)) (update_cmd (app_target self)) = Exits d rc out err ->
      Qltb 300 d = false ->
      fst r = Ret tt /\
      trace (snd r)
      = (trace w ++ [Print "Starting indexing...";
                     Run probe_cmd (Some 10);
                     Run (update_cmd (app_target self)) (Some 300);
                     Print ("Error during indexing: " ++ exn_str UnicodeEncodeError)])%list)).
Proof.
  intro r. subst r. split.
  - intro Hu.
    destruct (trigger_indexing_returns self w Hu) as (Hr & Hs & Hl).
    split; [exact Hr|]. split; [exact Hl|]. split; [exact Hs|].
    assert (Hu' : stdout_unicode (snd (trigger_indexing self w)) = true).
    { destruct Hs as [Hs _]. rewrite Hs. exact Hu. }
    split.
    + intros ev now. apply on_any_event_returns. exact Hu'.
    + intros ev now Hfile Hgo.
      destruct (on_any_event_accepted self ev now (snd (trigger_indexing self w)) Hfile Hgo)
        as (tr & _ & Htr).
      exists tr. exact Htr.
  - intros Hu Hp. split.
    + intro Ht.
      assert (Hesc : escapes self w = true).
      { unfold escapes. rewrite Hu, Hp, Ht. reflexivity. }
      split; [rewrite trigger_indexing_result, Hesc; reflexivity|].
      split.
      * revert Hu Hp Ht.
        run_cases self w
          ltac:(let H1 := fresh in let H2 := fresh in let H3 := fresh in
                intros H1 H2 H3;
                try discriminate H1; try discriminate H2; try discriminate H3;
                rewrite <- ?app_assoc; reflexivity).
      * intros ev now Hfile Hgo.
        destruct (on_any_event_accepted self ev now w Hfile Hgo) as (tr & Hr & _).
        rewrite Hr, escapes_debounce, Hesc. reflexivity.
    + intros d0 rc0 out0 err0 Hup Hd.
      revert Hu Hp Hup Hd.
      run_cases self w
        ltac:(let H1 := fresh in let H2 := fresh in let H3 := fresh in let H4 := fresh in
              intros H1 H2 H3 H4;
              try discriminate H1; try discriminate H2; try discriminate H3;
              try (injection H3 as -> _ _ _; rewrite H4 in *; discriminate);
              rewrite <- ?app_assoc; split; reflexivity).
Qed.

Lemma trigger_indexing_escapes_witness :
  fst (trigger_indexing (init "/w" "/w/main.py" 2)
         (legacy_session sample_fs backend_hangs None []))
  = Raise UnicodeEncodeError /\
  fst (on_any_event (init "/w" "/w/main.py" 2) a_file_event 100
         (legacy_session sample_fs backend_hangs None []))
  = Raise UnicodeEncodeError.
Proof.
  pose proof (proj1 (proj2 (trigger_indexing_absorbs_failures
                              (init "/w" "/w/main.py" 2)
                              (legacy_session sample_fs backend_hangs None []))
                           eq_refl eq_refl)
                eq_refl) as (H1 & _ & H3).
  split; [exact H1|].
  exact (H3 a_file_event 100 eq_refl eq_refl).
Defined.


(** ** A small logic for what computations add to the log *)

Section Tame.

Variable P : effect -> Prop.
Variable E : Z -> Prop.

Lemma grows_refl (w : World) : grows P w w.
Proof.
  split; [split; reflexivity|]. exists []. rewrite app_nil_r. split; [reflexivity|constructor].
Qed.

Lemma grows_trans (w1 w2 w3 : World) : grows P w1 w2 -> grows P w2 w3 -> grows P w1 w3.
Proof.
  intros [[Ho1 Hs1] (t1 & Ht1 & Hp1)] [[Ho2 Hs2] (t2 & Ht2 & Hp2)].
  split; [split; congruence|].
  exists (t1 ++ t2)%list. split.
  - rewrite Ht2, Ht1, app_assoc. reflexivity.
  - apply Forall_app. split; assumption.
Qed.

Lemma grows_emit (e : effect) (w : World) : P e -> grows P w (emit e w).
Proof.
  intro H. split; [split; reflexivity|]. exists [e]. split; [reflexivity|].
  constructor; [exact H|constructor].
Qed.

Lemma grows_same (w w' : World) :
  oracle w' = oracle w -> shutdown_event w' = shutdown_event w ->
  trace w' = trace w -> grows P w w'.
Proof.
  intros Ho Hs Ht. split; [split; assumption|]. exists []. rewrite app_nil_r. split; [exact Ht|constructor].
Qed.

Lemma tame_ret {A} (a : A) : tame P E (ret a).
Proof. intro w. split; [apply grows_refl|discriminate]. Qed.

Lemma tame_raise {A} (e : exn) : tame P E (@raise A e).
Proof. intro w. split; [apply grows_refl|discriminate]. Qed.

Lemma tame_sys_exit {A} (n : Z) : tame P E (@sys_exit A n).
Proof. apply tame_raise. Qed.

Lemma tame_blocks {A} : tame P E (@blocks A).
Proof. intro w. split; [apply grows_refl|discriminate]. Qed.

Lemma tame_os_exit {A} (n : Z) : E n -> tame P E (@os_exit A n).
Proof.
  intros H w. split; [apply grows_refl|]. simpl. intros m Hm. inversion Hm. subst. exact H.
Qed.

Lemma tame_bind {A B} (c : M A) (k : A -> M B) :
  tame P E c -> (forall a, tame P E (k a)) -> tame P E (bind c k).
Proof.
  intros Hc Hk w. unfold bind.
  destruct (Hc w) as [Hg Hx]. destruct (c w) as [[a|e|n|] w'] eqn:Ec; simpl in *.
  - destruct (Hk a w') as [Hg' Hx']. split; [eapply grows_trans; eassumption|exact Hx'].
  - split; [exact Hg|discriminate].
  - split; [exact Hg|]. intros m Hm. inversion Hm. subst. apply Hx. reflexivity.
  - split; [exact Hg|discriminate].
Qed.

Lemma tame_pick {A} (e : exn) (clauses : list ((exn -> bool) * (exn -> M A))) :
  Forall (fun cl => forall x, tame P E (snd cl x)) clauses -> tame P E (pick e clauses).
Proof.
  induction 1 as [|[catches handler] rest Hh _ IH]; simpl.
  - apply tame_raise.
  - destruct (catches e); [apply Hh|exact IH].
Qed.

Lemma tame_try {A} (c : M A) (clauses : list ((exn -> bool) * (exn -> M A))) :
  tame P E c ->
  Forall (fun cl => forall x, tame P E (snd cl x)) clauses ->
  tame P E (try_ c clauses).
Proof.
  intros Hc Hcl w. unfold try_.
  destruct (Hc w) as [Hg Hx]. destruct (c w) as [[a|e|n|] w'] eqn:Ec; simpl in *.
  - split; [exact Hg|discriminate].
  - destruct (tame_pick e clauses Hcl w') as [Hg' Hx'].
    split; [eapply grows_trans; eassumption|exact Hx'].
  - split; [exact Hg|exact Hx].
  - split; [exact Hg|discriminate].
Qed.

Lemma tame_finally {A} (c : M A) (f : M unit) :
  tame P E c -> tame P E f -> tame P E (finally c f).
Proof.
  intros Hc Hf w. unfold finally.
  destruct (Hc w) as [Hg Hx]. destruct (c w) as [[a|e|n|] w'] eqn:Ec; simpl in *.
  - destruct (tame_bind f (fun _ => ret a) Hf (fun _ => tame_ret a) w') as [Hg' Hx'].
    split; [eapply grows_trans; eassumption|exact Hx'].
  - destruct (tame_bind f (fun _ => @raise A e) Hf (fun _ => tame_raise e) w') as [Hg' Hx'].
    split; [eapply grows_trans; eassumption|exact Hx'].
  - split; [exact Hg|exact Hx].
  - split; [exact Hg|discriminate].
Qed.

Lemma tame_when (b : bool) (c : M unit) : tame P E c -> tame P E (when b c).
Proof. intro H. destruct b; [exact H|apply tame_ret]. Qed.

Lemma tame_do (e : effect) : P e -> tame P E (do_ e).
Proof. intros H w. split; [apply grows_emit; exact H|discriminate]. Qed.

Lemma tame_print (s : string) : P (Print s) -> tame P E (print s).
Proof. apply tame_do. Qed.

Lemma tame_sleep (d : Q) : P (Sleep d) -> tame P E (sleep d).
Proof. apply tame_do. Qed.

Lemma tame_print_pictograph (s : string) : P (Print s) -> tame P E (print_pictograph s).
Proof.
  intros H w. unfold print_pictograph.
  destruct (stdout_unicode w); cbn [fst snd].
  - split; [apply grows_emit; exact H|discriminate].
  - split; [apply grows_refl|discriminate].
Qed.

Lemma tame_path_exists (p : string) : tame P E (path_exists p).
Proof. intro w. split; [apply grows_refl|discriminate]. Qed.

Lemma tame_path_is_dir (p : string) : tame P E (path_is_dir p).
Proof. intro w. split; [apply grows_refl|discriminate]. Qed.

(** A step that reads or rewrites the globals without logging. *)
Lemma tame_quiet {A} (f : World -> A) (g : World -> World) :
  (forall w, oracle (g w) = oracle w) ->
  (forall w, shutdown_event (g w) = shutdown_event w) ->
  (forall w, trace (g w) = trace w) ->
  tame P E (fun w => (Ret (f w), g w)).
Proof.
  intros Ho Hs Ht w. split; [apply grows_same; [apply Ho|apply Hs|apply Ht]|discriminate].
Qed.

(** A computation chosen by looking at the world. *)
Lemma tame_by_world {A} (c : World -> M A) :
  (forall w0, tame P E (c w0)) -> tame P E (fun w => c w w).
Proof. intros H w. apply (H w w). Qed.

Lemma tame_subprocess_run (cmd : list string) (t : option Q) (check : bool) :
  P (Run cmd t) -> tame P E (subprocess_run cmd t check).
Proof.
  intros H w. unfold subprocess_run.
  assert (Hg : grows P w (emit (Run cmd t) (bump w))).
  { split; [split; reflexivity|]. exists [Run cmd t]. split; [reflexivity|].
    repeat constructor. exact H. }
  destruct (oracle w (nruns w) cmd) as [d rc out err| | |].
  - destruct (match t with Some t0 => Qltb t0 d | None => false end);
      [split; [exact Hg|discriminate]|].
    destruct (check && negb (rc =? 0)%Z); split; try exact Hg; discriminate.
  - destruct t; split; try exact Hg; discriminate.
  - split; [exact Hg|discriminate].
  - split; [exact Hg|discriminate].
Qed.

Lemma grows_with_process (e : effect) (p : option Popen) (w : World) :
  P e -> grows P w (with_process p (emit e w)).
Proof.
  intro H. split; [split; reflexivity|]. exists [e]. split; [reflexivity|].
  repeat constructor. exact H.
Qed.

Lemma tame_popen (cmd : list string) : P (Spawn cmd) -> tame P E (popen cmd).
Proof.
  intros H w. unfold popen. destruct (companion w).
  - split; [apply grows_with_process; exact H|discriminate].
  - split; [apply grows_emit; exact H|discriminate].
Qed.

Lemma tame_poll : (forall r, P (Poll r)) -> tame P E poll.
Proof.
  intros H w. unfold poll, on_process. destruct (mcp_server_process w) as [p|].
  - destruct (poll_step p) as [r p']. split; [apply grows_with_process; apply H|discriminate].
  - split; [apply grows_refl|discriminate].
Qed.

Lemma tame_terminate : P Terminate -> tame P E terminate.
Proof.
  intros H w. unfold terminate, on_process. destruct (mcp_server_process w) as [p|].
  - destruct (status p); split;
      try (apply grows_with_process; exact H); try apply grows_refl; discriminate.
  - split; [apply grows_refl|discriminate].
Qed.

Lemma tame_wait (t : Q) : (forall d, P (Waited d)) -> tame P E (wait t).
Proof.
  intros H w. unfold wait, on_process. destruct (mcp_server_process w) as [p|].
  - destruct (status p).
    + destruct (exits_after (proc p)) as [n|].
      * destruct (Qle_bool (inject_Z (Z.of_nat n) / 10) t); split;
          try (apply grows_with_process; apply H); try (apply grows_emit; apply H);
          discriminate.
      * split; [apply grows_emit; apply H|discriminate].
    + destruct (sigterm_delay (proc p)) as [d|].
      * destruct (Qle_bool d t); split;
          try (apply grows_with_process; apply H); try (apply grows_emit; apply H);
          discriminate.
      * split; [apply grows_emit; apply H|discriminate].
    + split; [apply grows_emit; apply H|discriminate].
  - split; [apply grows_refl|discriminate].
Qed.

Lemma tame_kill : P Kill -> tame P E kill.
Proof.
  intros H w. unfold kill, on_process. destruct (mcp_server_process w) as [p|].
  - destruct (status p); split;
      try (apply grows_with_process; exact H); try apply grows_refl; discriminate.
  - split; [apply grows_refl|discriminate].
Qed.

Lemma tame_communicate : P Communicate -> tame P E communicate.
Proof.
  intros H w. unfold communicate, on_process. destruct (mcp_server_process w) as [p|].
  - destruct (status p); split; try (apply grows_emit; exact H); discriminate.
  - split; [apply grows_refl|discriminate].
Qed.

Lemma tame_thread_start (body : M unit) :
  P ThreadStart -> tame P E body -> tame P E (thread_start body).
Proof.
  intros H Hb w. unfold thread_start.
  destruct (Hb (emit ThreadStart w)) as [Hg Hx].
  assert (Hg0 : grows P w (emit ThreadStart w)) by (apply grows_emit; exact H).
  destruct (body (emit ThreadStart w)) as [[a|e|n|] w'] eqn:Eb; simpl in *.
  - split; [|discriminate]. eapply grows_trans; [exact Hg0|].
    eapply grows_trans; [exact Hg|]. apply grows_same; reflexivity.
  - split; [|discriminate]. eapply grows_trans; [exact Hg0|].
    eapply grows_trans; [exact Hg|]. apply grows_same; reflexivity.
  - split; [eapply grows_trans; eassumption|exact Hx].
  - split; [|discriminate]. eapply grows_trans; [exact Hg0|].
    eapply grows_trans; [exact Hg|]. apply grows_same; reflexivity.
Qed.

End Tame.

(** ** What the parts of [standalone_watcher.py] add to the log *)

Ltac clauses :=
  repeat first [ apply Forall_nil | apply Forall_cons; [simpl; intro|] ].

Ltac tame_step side :=
  cbv zeta;
  match goal with
  | |- tame _ _ (if ?b then _ else _) => destruct b
  | |- tame _ _ (bind _ _) => apply tame_bind; [|intro]
  | |- tame _ _ (ret _) => apply tame_ret
  | |- tame _ _ (raise _) => apply tame_raise
  | |- tame _ _ (sys_exit _) => apply tame_sys_exit
  | |- tame _ _ (os_exit _) => apply tame_os_exit; exact I
  | |- tame _ _ blocks => apply tame_blocks
  | |- tame _ _ (print _) => apply tame_print; side
  | |- tame _ _ (print_pictograph _) => apply tame_print_pictograph; side
  | |- tame _ _ (sleep _) => apply tame_sleep; side
  | |- tame _ _ (do_ _) => apply tame_do; side
  | |- tame _ _ (when _ _) => apply tame_when
  | |- tame _ _ (path_exists _) => apply tame_path_exists
  | |- tame _ _ (path_is_dir _) => apply tame_path_is_dir
  | |- tame _ _ (subprocess_run _ _ _) => apply tame_subprocess_run; side
  | |- tame _ _ (popen _) => apply tame_popen; side
  | |- tame _ _ poll => apply tame_poll; intro; side
  | |- tame _ _ terminate => apply tame_terminate; side
  | |- tame _ _ (wait _) => apply tame_wait; intro; side
  | |- tame _ _ kill => apply tame_kill; side
  | |- tame _ _ communicate => apply tame_communicate; side
  | |- tame _ _ (try_ _ _) => apply tame_try; [|clauses]
  | |- tame _ _ (finally _ _) => apply tame_finally
  end.

Section TameParts.

Variable P : effect -> Prop.
Variable E : Z -> Prop.
Hypothesis P_not_watching : forall e, not_watching e -> P e.

Local Ltac step :=
  tame_step ltac:(apply P_not_watching; unfold not_watching; discriminate).

Lemma tame_check_cocoindex_available : tame P E check_cocoindex_available.
Proof. unfold check_cocoindex_available. repeat step. Qed.

Lemma tame_trigger_indexing (self : CocoIndexEventHandler) : tame P E (trigger_indexing self).
Proof.
  unfold trigger_indexing. repeat step.
  apply tame_check_cocoindex_available.
Qed.

Lemma tame_stop_mcp_server (announce escalate : string) :
  tame P E (stop_mcp_server announce escalate).
Proof.
  intro w. unfold stop_mcp_server.
  destruct (mcp_server_process w) as [p|]; [|split; [apply grows_refl|discriminate]].
  revert w.
  change (tame P E (r <- poll ;;
                    match r with
                    | Some _ => ret tt
                    | None =>
                        print announce ;; terminate ;;
                        try_ (wait grace_period ;; ret tt)
                             [(is_TimeoutExpired, fun _ => print escalate ;; kill)]
                    end)).
  step; [step|]. destruct a; repeat step.
Qed.

Lemma tame_supervise (fuel : nat) : tame P E (supervise fuel).
Proof.
  induction fuel as [|fuel IH]; simpl; [apply tame_blocks|].
  intro w. destruct (shutdown_event w); [split; [apply grows_refl|discriminate]|].
  revert w.
  change (tame P E (r <- poll ;;
                    match r with
                    | Some _ =>
                        out <- communicate ;;
                        when (negb (is_empty (fst out)))
                             (print ("MCP Server stdout: " ++ fst out)) ;;
                        when (negb (is_empty (snd out)))
                             (print ("MCP Server stderr: " ++ snd out))
                    | None => sleep 0.1 ;; supervise fuel
                    end)).
  step; [step|]. destruct a; repeat step. exact IH.
Qed.

Lemma tame_run_mcp_server_threaded (addr ff : string) (fuel : nat) :
  tame P E (run_mcp_server_threaded addr ff fuel).
Proof.
  unfold run_mcp_server_threaded. repeat step.
  - apply (tame_quiet P E sys_executable (fun w => w)); reflexivity.
  - apply tame_supervise.
  - apply tame_stop_mcp_server.
Qed.

End TameParts.

(** ** What the parts of [watch_and_index.py] add to the log *)

Section TameContainer.

Let any_effect : effect -> Prop := fun _ => True.
Let any_code : Z -> Prop := fun _ => True.

Local Ltac step := tame_step ltac:(exact I).

Lemma tame_container_on_any_event (ev : event) :
  tame any_effect any_code (WatchAndIndex.on_any_event ev).
Proof. unfold WatchAndIndex.on_any_event. repeat step. Qed.

Lemma tame_container_signal_handler (signum : Z) :
  tame any_effect any_code (WatchAndIndex.signal_handler signum).
Proof. unfold WatchAndIndex.signal_handler. repeat step. Qed.

Lemma tame_forever (pending : list input) (delivering : bool) :
  tame any_effect any_code (WatchAndIndex.forever delivering pending).
Proof.
  revert delivering. induction pending as [|[ev now|signum] rest IH]; intro delivering; simpl.
  - apply tame_blocks.
  - destruct delivering.
    + intro w.
      assert (H0 : grows any_effect w (emit (Sleep 1) w)) by (apply grows_emit; exact I).
      destruct (tame_container_on_any_event ev (emit (Sleep 1) w)) as [Hg _].
      destruct (WatchAndIndex.on_any_event ev (emit (Sleep 1) w)) as [[a|e|n|] w'];
        simpl in Hg;
        match goal with
        | |- context [WatchAndIndex.forever ?d rest w'] =>
            destruct (IH d w') as [Hg' Hx']
        end;
        (split; [|intros; exact I]);
        (eapply grows_trans; [exact H0|]); (eapply grows_trans; [exact Hg|]); exact Hg'.
    + repeat step. apply IH.
  - repeat step.
    + apply tame_container_signal_handler.
    + apply IH.
Qed.

End TameContainer.

(** ** C10: the checks of the server-only mode *)

(** C10.  With [--mcp-server-only], a flow file that does not exist or a
    [cocoindex] package that cannot be imported (the import check ends with
    a nonzero status) makes the process exit with status 1, and no server
    process has been started by then. *)
Theorem server_only_preflight_exits_1 (args : Args) (fuel : nat) (w : World) :
  mcp_server_only args = true ->
  (fs w (flow_file args) = None \/
   exists d rc out err,
     oracle w (nruns w) (import_cmd (sys_executable w)) = Exits d rc out err /\
     rc <> 0%Z) ->
  let r := main args fuel w in
  fst r = Raise (SystemExit 1) /\
  exit_status (fst r) = Some 1%Z /\
  exists tr,
    trace (snd r) = (trace w ++ tr)%list /\
    (forall cmd, ~ In (Spawn cmd) tr) /\
    (forall t, ~ In (Run (server_cmd (sys_executable w) (flow_file args) (address args)) t) tr).
Proof.
  intros Hmode Hbad r. subst r.
  unfold main. rewrite Hmode.
  unfold run_mcp_server, bind, print, path_exists, sys_exit, raise, try_. simpl.
  destruct (fs w (flow_file args)) as [k|] eqn:Ef; simpl.
  - destruct Hbad as [Hnone | (d & rc & out & err & Ho & Hrc)]; [discriminate|].
    unfold subprocess_run. simpl. rewrite Ho. simpl.
    assert (Hz : (rc =? 0)%Z = false) by (apply Z.eqb_neq; exact Hrc).
    rewrite Hz. simpl.
    repeat split.
    eexists. rewrite <- !app_assoc. split; [reflexivity|].
    split.
    + intros cmd Hin. simpl in Hin.
      repeat (destruct Hin as [Hin|Hin]; [discriminate Hin|]). exact Hin.
    + intros t Hin. simpl in Hin.
      repeat (destruct Hin as [Hin|Hin]; [discriminate Hin|]). exact Hin.
  - repeat split.
    eexists. rewrite <- !app_assoc. split; [reflexivity|].
    split.
    + intros cmd Hin. simpl in Hin.
      repeat (destruct Hin as [Hin|Hin]; [discriminate Hin|]). exact Hin.
    + intros t Hin. simpl in Hin.
      repeat (destruct Hin as [Hin|Hin]; [discriminate Hin|]). exact Hin.
Qed.

Lemma server_only_preflight_witness :
  exit_status (fst (main server_only_args 0 (session empty_fs backend_ok None [])))
  = Some 1%Z.
Proof.
  exact (proj1 (proj2 (server_only_preflight_exits_1
                         server_only_args O (session empty_fs backend_ok None [])
                         eq_refl (or_introl eq_refl)))).
Defined.

(** ** C8: the watch root at start *)

(** C8, as stated, fails for [watch_and_index.py]: when [/data_to_index]
    does not exist, [start_file_watcher] creates it and starts watching; the
    process does not stop with a path error. *)
Lemma missing_root_created_and_watched :
  let r := WatchAndIndex.start_file_watcher (session empty_fs backend_ok None []) in
  fst r = Blocks /\
  fs (snd r) WatchAndIndex.WATCH_PATH = Some Dir /\
  trace (snd r)
  = [Print "Starting file watcher for /data_to_index...";
     Print "Creating watch directory: /data_to_index";
     Makedirs "/data_to_index";
     Schedule "/data_to_index" true;
     ObserverStart;
     Print "File watcher started. Monitoring /data_to_index for changes..."].
Proof. repeat split. Qed.

Lemma validate_paths_eq (wp tgt : string) (w : World) :
  validate_paths wp tgt w
  = (match fs w wp with
     | None => Raise FileNotFoundError
     | Some File => Raise NotADirectoryError
     | Some Dir =>
         match fs w tgt with
         | None => Raise FileNotFoundError
         | Some _ => Ret (wp, tgt)
         end
     end, w).
Proof.
  unfold validate_paths, bind, path_exists, path_is_dir, raise, ret.
  destruct (fs w wp) as [[|]|] eqn:E1; destruct (fs w tgt) eqn:E2;
    repeat (cbv beta iota; cbn [negb]; rewrite ?E1, ?E2); reflexivity.
Qed.

Lemma standalone_root_checked (args : Args) (fuel : nat) (w : World) (wp tgt : string) :
  mcp_server_only args = false ->
  arg_watch_path args = Some wp -> arg_app_target args = Some tgt ->
  is_empty wp = false -> is_empty tgt = false ->
  fs w wp <> Some Dir ->
  fst (main args fuel w) = Raise (SystemExit 1) /\
  fs (snd (main args fuel w)) = fs w /\
  exists e, trace (snd (main args fuel w)) = (trace w ++ [Print ("Error: " ++ exn_str e)])%list.
Proof.
  intros Hmode Hwp Htgt Hne1 Hne2 Hbad.
  assert (Hm : exists e,
             main args fuel w = (Raise (SystemExit 1), emit (Print ("Error: " ++ exn_str e)) w)).
  { unfold main. rewrite Hmode, Hwp, Htgt. unfold truthy. rewrite Hne1, Hne2.
    cbn [negb orb].
    unfold bind at 1. unfold try_ at 1. rewrite validate_paths_eq.
    destruct (fs w wp) as [[|]|] eqn:Ef.
    - exists NotADirectoryError. reflexivity.
    - exfalso. apply Hbad. reflexivity.
    - exists FileNotFoundError. reflexivity. }
  destruct Hm as [e Hm]. rewrite Hm.
  split; [reflexivity|]. split; [reflexivity|]. exists e. reflexivity.
Qed.

Lemma container_root_created (w : World) :
  fs w WatchAndIndex.WATCH_PATH = None -> makedirs_ok w = true ->
  exists tr,
    trace (snd (WatchAndIndex.start_file_watcher w))
    = (trace w ++ [Print "Starting file watcher for /data_to_index...";
                   Print "Creating watch directory: /data_to_index";
                   Makedirs WatchAndIndex.WATCH_PATH;
                   Schedule WatchAndIndex.WATCH_PATH true;
                   ObserverStart] ++ tr)%list.
Proof.
  intros Hmissing Hok.
  set (rest :=
         print ("File watcher started. Monitoring " ++ WatchAndIndex.WATCH_PATH
                ++ " for changes...") ;;
         try_ (fun w => WatchAndIndex.forever true (inbox w) w)
              [(is_KeyboardInterrupt,
                fun _ => print "Stopping file watcher..." ;; do_ ObserverStop)] ;;
         do_ ObserverJoin).
  set (clauses := [(is_Exception,
                    fun e => print ("Error in file watcher: " ++ exn_str e) ;;
                             @os_exit unit 1)]).
  set (w5 := emit ObserverStart
               (emit (Schedule WatchAndIndex.WATCH_PATH true)
                  (with_fs (fun q => if String.eqb q WatchAndIndex.WATCH_PATH
                                     then Some Dir else fs w q)
                     (emit (Makedirs WatchAndIndex.WATCH_PATH)
                        (emit (Print "Creating watch directory: /data_to_index")
                           (emit (Print "Starting file watcher for /data_to_index...") w)))))).
  assert (Hrun : WatchAndIndex.start_file_watcher w
                 = match rest w5 with
                   | (Raise e, w') => pick e clauses w'
                   | r => r
                   end).
  { unfold WatchAndIndex.start_file_watcher, try_ at 1.
    unfold bind at 1, print at 1. unfold bind at 1, path_exists.
    cbn [fs emit]. rewrite Hmissing. cbn [negb when].
    unfold bind at 1. unfold bind at 1, print at 1.
    unfold WatchAndIndex.makedirs. cbn [makedirs_ok emit]. rewrite Hok.
    reflexivity. }
  assert (Hrest : tame (fun _ => True) (fun _ => True) rest).
  { unfold rest. repeat (tame_step ltac:(exact I)).
    apply (tame_by_world _ _ (fun w0 => WatchAndIndex.forever true (inbox w0))).
    intro w0. apply tame_forever. }
  assert (Hcl : forall e, tame (fun _ => True) (fun _ => True) (pick e clauses)).
  { intro e. apply tame_pick. unfold clauses. clauses.
    repeat (tame_step ltac:(exact I)). }
  assert (Hfinal : grows (fun _ => True) w5 (snd (WatchAndIndex.start_file_watcher w))).
  { rewrite Hrun. destruct (Hrest w5) as [Hg _].
    destruct (rest w5) as [[a|e|n|] w']; simpl in Hg; try exact Hg.
    eapply grows_trans; [exact Hg|]. apply Hcl. }
  destruct Hfinal as [_ (tr & Htr & _)].
  exists tr. rewrite Htr. unfold w5. simpl. rewrite <- !app_assoc. reflexivity.
Qed.

(** C8, amended.  In [standalone_watcher.py] a watch root that is missing or
    is not a directory ends [main] with status 1 after the error message;
    nothing is created and the observer is never started.  In
    [watch_and_index.py] a missing watch root is created (when the directory
    can be made) and then watched. *)
Theorem watch_root_checked_or_created :
  (forall (args : Args) (fuel : nat) (w : World) (wp tgt : string),
     mcp_server_only args = false ->
     arg_watch_path args = Some wp -> arg_app_target args = Some tgt ->
     is_empty wp = false -> is_empty tgt = false ->
     fs w wp <> Some Dir ->
     fst (main args fuel w) = Raise (SystemExit 1) /\
     fs (snd (main args fuel w)) = fs w /\
     exists e,
       trace (snd (main args fuel w)) = (trace w ++ [Print ("Error: " ++ exn_str e)])%list) /\
  (forall w : World,
     fs w WatchAndIndex.WATCH_PATH = None -> makedirs_ok w = true ->
     exists tr,
       trace (snd (WatchAndIndex.start_file_watcher w))
       = (trace w ++ [Print "Starting file watcher for /data_to_index...";
                      Print "Creating watch directory: /data_to_index";
                      Makedirs WatchAndIndex.WATCH_PATH;
                      Schedule WatchAndIndex.WATCH_PATH true;
                      ObserverStart] ++ tr)%list).
Proof.
  split.
  - apply standalone_root_checked.
  - apply container_root_created.
Qed.

Lemma watch_root_checked_or_created_witness :
  fst (main watch_args 0 (session empty_fs backend_ok None [])) = Raise (SystemExit 1) /\
  exists tr,
    trace (snd (WatchAndIndex.start_file_watcher (session empty_fs backend_ok None [])))
    = ([] ++ [Print "Starting file watcher for /data_to_index...";
              Print "Creating watch directory: /data_to_index";
              Makedirs WatchAndIndex.WATCH_PATH;
              Schedule WatchAndIndex.WATCH_PATH true;
              ObserverStart] ++ tr)%list.
Proof.
  split.
  - refine (proj1 (proj1 watch_root_checked_or_created watch_args O
                     (session empty_fs backend_ok None []) "/w" "/w/main.py"
                     eq_refl eq_refl eq_refl eq_refl eq_refl _)).
    discriminate.
  - exact (proj2 watch_root_checked_or_created (session empty_fs backend_ok None [])
             eq_refl eq_refl).
Defined.

(** ** C7: when the backend is probed *)

(** C7, as stated, fails: the backend is probed at startup and again at the
    start of every indexing run.  In a watch-only session that receives one
    file event and then a termination signal, the version call is made
    twice. *)
Lemma backend_probed_again_for_event :
  let r := main watch_args 0
             (session sample_fs backend_ok None
                      [FsEvent a_file_event 1762000000; Signal 15]) in
  exit_status (fst r) = Some 0%Z /\
  probes (trace (snd r)) = 2%nat /\
  trace (snd r)
  = [InstallHandlers;
     Run probe_cmd (Some 10);
     Print "Starting CocoIndex File Watcher";
     Print "  Watch Path: /w";
     Print "  App Target: /w/main.py";
     Print "  Recursive: True";
     Print "  Debounce";
     Print "  Press Ctrl+C to stop";
     Schedule "/w" true;
     ObserverStart;
     Sleep 1;
     Print "Change detected: /w/a.txt";
     Print "Starting indexing...";
     Run probe_cmd (Some 10);
     Run (update_cmd "/w/main.py") (Some 300);
     Print (check_mark ++ " Indexing completed successfully");
     Print "Output: done";
     Sleep 1;
     Print "Received signal, shutting down...";
     ObserverStop;
     ObserverStop;
     ObserverJoin;
     Print "Services stopped"].
Proof. repeat split. Qed.

Lemma check_unavailable (w : World) :
  probe_ok (oracle w (nruns w) probe_cmd) = false ->
  check_cocoindex_available w = (Ret false, emit (Run probe_cmd (Some 10)) (bump w)) \/
  check_cocoindex_available w
  = (Raise PermissionError, emit (Run probe_cmd (Some 10)) (bump w)).
Proof.
  unfold check_cocoindex_available, try_, bind, subprocess_run, probe_ok.
  destruct (oracle w (nruns w) probe_cmd) as [d rc out err| | |]; cbn [andb negb];
    try (intros _; left; reflexivity); try (intros _; right; reflexivity).
  destruct (Qltb 10 d); cbn [negb andb]; [intros _; left; reflexivity|].
  intro H. unfold ret. cbn [returncode]. rewrite H. left. reflexivity.
Qed.

Lemma thread_start_returns (P : effect -> Prop) (body : M unit) (w : World) :
  tame P (fun _ => False) body -> fst (thread_start body w) = Ret tt.
Proof.
  intro Hb. unfold thread_start.
  destruct (Hb (emit ThreadStart w)) as [_ Hx].
  destruct (body (emit ThreadStart w)) as [[a|e|n|] w']; try reflexivity.
  exfalso. apply (Hx n). reflexivity.
Qed.

Lemma thread_launch_returns (b : bool) (addr ff : string) (fuel : nat) (w : World) :
  exists w',
    when b (print "Starting MCP server thread..." ;;
            thread_start (run_mcp_server_threaded addr ff fuel) ;;
            sleep 2) w = (Ret tt, w') /\
    grows not_watching w w'.
Proof.
  assert (Hbody : tame not_watching (fun _ => False) (run_mcp_server_threaded addr ff fuel))
    by (apply tame_run_mcp_server_threaded; auto).
  destruct b; [|exists w; split; [reflexivity|apply grows_refl]].
  cbn [when].
  set (w1 := emit (Print "Starting MCP server thread...") w).
  rewrite (bind_ret_eq (print "Starting MCP server thread...") _ w w1 tt eq_refl).
  pose proof (thread_start_returns _ _ w1 Hbody) as Hr.
  destruct (tame_thread_start not_watching (fun _ => False) _
              ltac:(unfold not_watching; discriminate) Hbody w1) as [Hg _].
  destruct (thread_start (run_mcp_server_threaded addr ff fuel) w1) as [r w2] eqn:Et.
  simpl in Hr, Hg. subst r.
  rewrite (bind_ret_eq _ _ w1 w2 tt Et).
  exists (emit (Sleep 2) w2). split; [reflexivity|].
  apply (grows_trans _ w w1); [apply grows_emit; unfold not_watching; discriminate|].
  apply (grows_trans _ w1 w2); [exact Hg|].
  apply grows_emit. unfold not_watching. discriminate.
Qed.

Lemma validated (wp tgt : string) (w : World) :
  let c := try_ (validate_paths wp tgt)
                [((fun e => match e with
                            | FileNotFoundError | NotADirectoryError => true
                            | _ => false
                            end),
                  fun e => print ("Error: " ++ exn_str e) ;; sys_exit 1)] in
  c w = (Ret (wp, tgt), w) \/
  exists e, c w = (Raise (SystemExit 1), emit (Print ("Error: " ++ exn_str e)) w).
Proof.
  intro c. subst c. unfold try_. rewrite validate_paths_eq.
  destruct (fs w wp) as [[|]|].
  - right. exists NotADirectoryError. reflexivity.
  - destruct (fs w tgt).
    + left. reflexivity.
    + right. exists FileNotFoundError. reflexivity.
  - right. exists FileNotFoundError. reflexivity.
Qed.

Lemma main_unavailable (args : Args) (fuel : nat) (w : World) :
  mcp_server_only args = false -> unavailable w ->
  exit_status (fst (main args fuel w)) = Some 1%Z /\
  grows not_watching w (snd (main args fuel w)).
Proof.
  intros Hmode Hun. unfold main. rewrite Hmode.
  destruct (negb (truthy (arg_watch_path args)) || negb (truthy (arg_app_target args))).
  { split; [reflexivity|]. apply grows_emit. unfold not_watching. discriminate. }
  cbv zeta.
  set (wp := match arg_watch_path args with Some s => s | None => EmptyString end).
  set (tgt := match arg_app_target args with Some s => s | None => EmptyString end).
  destruct (validated wp tgt w) as [Hv|[e Hv]]; cbv zeta in Hv.
  2:{ rewrite (bind_raise_eq _ _ _ _ _ Hv).
      split; [reflexivity|]. apply grows_emit. unfold not_watching. discriminate. }
  rewrite (bind_ret_eq _ _ _ _ _ Hv). cbn [fst snd].
  set (w1 := emit InstallHandlers w).
  rewrite (bind_ret_eq setup_signal_handlers _ w w1 tt eq_refl).
  destruct (thread_launch_returns (with_mcp_server args) (address args) (flow_file args)
              fuel w1) as (w2 & Hw2 & Hg2).
  rewrite (bind_ret_eq _ _ w1 w2 tt Hw2).
  assert (Hg : grows not_watching w (emit (Run probe_cmd (Some 10)) (bump w2))).
  { apply (grows_trans _ w w1); [apply grows_emit; unfold not_watching; discriminate|].
    apply (grows_trans _ w1 w2); [exact Hg2|].
    split; [split; reflexivity|]. exists [Run probe_cmd (Some 10)].
    split; [reflexivity|]. repeat constructor. discriminate. }
  assert (Hp : probe_ok (oracle w2 (nruns w2) probe_cmd) = false).
  { destruct Hg2 as [[Ho _] _]. rewrite Ho. unfold w1. cbn [oracle emit]. apply Hun. }
  destruct (check_unavailable w2 Hp) as [Hc|Hc].
  - rewrite (bind_ret_eq _ _ _ _ _ Hc). cbn [negb].
    split; [reflexivity|].
    eapply grows_trans; [exact Hg|]. apply grows_emit. unfold not_watching. discriminate.
  - rewrite (bind_raise_eq _ _ _ _ _ Hc). split; [reflexivity|exact Hg].
Qed.

(** C7, amended.  The backend is probed with the version call at startup,
    and when it is absent then, [main] ends with status 1 without having
    started the observer.  It is probed again at the start of every indexing
    run; absence there is not fatal: [trigger_indexing] returns, the update
    command is not run, and the one message logged after the version call
    tells why (the backend is not available, or the exception of a version
    call that could not be launched).  A run returns as well whenever the
    standard output has the pictographs of its messages. *)
Theorem backend_probed_at_startup_and_per_run :
  (forall (args : Args) (fuel : nat) (w : World),
     mcp_server_only args = false -> unavailable w ->
     exit_status (fst (main args fuel w)) = Some 1%Z /\
     exists tr,
       trace (snd (main args fuel w)) = (trace w ++ tr)%list /\ ~ In ObserverStart tr) /\
  (forall (self : CocoIndexEventHandler) (w : World),
     exists tr,
       (stdout_unicode w = true \/ probe_ok (oracle w (nruns w) probe_cmd) = false ->
        fst (trigger_indexing self w) = Ret tt) /\
       trace (snd (trigger_indexing self w))
       = (trace w ++ Print "Starting indexing..." :: Run probe_cmd (Some 10) :: tr)%list /\
       (probe_ok (oracle w (nruns w) probe_cmd) = false ->
        (forall t, ~ In (Run (update_cmd (app_target self)) t) tr) /\
        tr = [Print (match oracle w (nruns w) probe_cmd with
                     | Denied => "Error during indexing: " ++ exn_str PermissionError
                     | _ => "Error: CocoIndex is not available. Please ensure it's installed and in PATH."
                     end)])).
Proof.
  split.
  - intros args fuel w Hmode Hun.
    destruct (main_unavailable args fuel w Hmode Hun) as [Hx [_ (tr & Htr & Hall)]].
    split; [exact Hx|]. exists tr. split; [exact Htr|].
    intro Hin. rewrite Forall_forall in Hall. apply (Hall _ Hin). reflexivity.
  - intros self w.
    destruct (trigger_indexing_probes_first self w) as (tr & Htr & Hskip).
    exists tr. split; [|split; [exact Htr|exact Hskip]].
    intro H. rewrite trigger_indexing_result. unfold escapes.
    destruct H as [H|H]; rewrite H; [reflexivity|].
    rewrite andb_false_r. reflexivity.
Qed.

Lemma backend_probed_at_startup_witness :
  exit_status (fst (main combined_args 3
                      (session sample_fs backend_absent (Some stubborn_server) [])))
  = Some 1%Z.
Proof.
  refine (proj1 (proj1 backend_probed_at_startup_and_per_run combined_args 3%nat
                   (session sample_fs backend_absent (Some stubborn_server) [])
                   eq_refl _)).
  intro n. reflexivity.
Defined.

(** ** C9: stopping the companion *)

Ltac blocked_bound :=
  cbn [blocked app];
  repeat match goal with
         | H : Qle_bool _ _ = true |- _ => apply Qle_bool_iff in H
         end;
  unfold grace_period in *; lra.

Ltac quiet_log := repeat constructor.

Ltac stop_leaf :=
  cbn -[Qle_bool grace_period];
  try match goal with
      | H : Qle_bool _ _ = _ |- _ => rewrite !H; cbn -[Qle_bool grace_period]
      end;
  split; [reflexivity|]; split; [reflexivity|]; split; [eauto|]; split; [reflexivity|];
  eexists; eexists;
  split; [rewrite <- ?app_assoc; reflexivity|];
  split; [rewrite <- ?app_assoc; cbn [app]; reflexivity|];
  split; [blocked_bound|];
  split; [quiet_log|];
  split;
  [ let p := fresh "p" in let Hp := fresh "Hp" in let Hq := fresh "Hq" in
    intros p Hp Hq; inversion Hp; subst; cbn in Hq;
    first [ exfalso; apply Hq; reflexivity | quiet_log ]
  | let p := fresh "p" in let Hp := fresh "Hp" in let Hs := fresh "Hs" in
    let Hq := fresh "Hq" in
    intros p Hp Hs Hq; inversion Hp; subst; cbn -[Qle_bool grace_period] in *;
    first [ discriminate
          | match goal with
            | H : Qle_bool _ _ = _ |- _ => rewrite H; reflexivity
            end
          | reflexivity ] ].

(** C9.  Stopping the companion: when the child is still running, the
    graceful-stop signal is sent, the wait lasts the grace period of five
    seconds at most, and the child that has not stopped by then is killed;
    the call returns with the child reaped.  On a child that has already
    exited the call sends no signal and does not wait, and so does a second
    call made right after the first; neither raises. *)
Theorem stop_mcp_server_escalates_and_repeats (announce escalate : string) (w : World) :
  let r1 := stop_mcp_server announce escalate w in
  let r2 := stop_mcp_server announce escalate (snd r1) in
  fst r1 = Ret tt /\ fst r2 = Ret tt /\
  reaped (snd r1) /\
  mcp_server_process (snd r2) = mcp_server_process (snd r1) /\
  exists tr1 tr2,
    trace (snd r1) = (trace w ++ tr1)%list /\
    trace (snd r2) = (trace (snd r1) ++ tr2)%list /\
    blocked tr1 <= grace_period /\
    Forall quiet tr2 /\
    (forall p, mcp_server_process w = Some p -> fst (poll_step p) <> None ->
               Forall quiet tr1) /\
    (forall p, mcp_server_process w = Some p -> status p = Running ->
               fst (poll_step p) = None ->
               tr1 = match sigterm_delay (proc p) with
                     | Some d =>
                         if Qle_bool d grace_period
                         then [Poll None; Print announce; Terminate; Waited d]
                         else [Poll None; Print announce; Terminate;
                               Waited grace_period; Print escalate; Kill]
                     | None => [Poll None; Print announce; Terminate;
                                Waited grace_period; Print escalate; Kill]
                     end).
Proof.
  intros r1 r2. subst r2 r1.
  destruct w as [f mk env uni exe orc n comp inb sd obs [[[ea code out err delay] st]|] th tr].
  2:{ cbn. split; [reflexivity|]. split; [reflexivity|]. split; [exact I|].
      split; [reflexivity|]. exists [], []. rewrite app_nil_r.
      split; [reflexivity|]. split; [reflexivity|]. split; [blocked_bound|].
      split; [constructor|]. split; intros p Hp; discriminate Hp. }
  unfold stop_mcp_server, reaped, bind, poll, on_process, poll_step, try_, print,
    terminate, wait, kill.
  cbn [mcp_server_process status proc exits_after].
  destruct st as [| |rc].
  - destruct ea as [[|k]|].
    + stop_leaf.
    + destruct delay as [d|]; [destruct (Qle_bool d grace_period) eqn:Eq|]; stop_leaf.
    + destruct delay as [d|]; [destruct (Qle_bool d grace_period) eqn:Eq|]; stop_leaf.
  - destruct delay as [d|]; [destruct (Qle_bool d grace_period) eqn:Eq|]; stop_leaf.
  - stop_leaf.
Qed.

Lemma stop_mcp_server_witness :
  let w := with_process (Some (mkPopen stubborn_server Running))
             (session sample_fs backend_ok (Some stubborn_server) []) in
  exists tr1,
    trace (snd (stop_mcp_server "Terminating MCP server..." "Force killing MCP server..." w))
    = ([] ++ tr1)%list /\
    tr1 = [Poll None; Print "Terminating MCP server..."; Terminate;
           Waited grace_period; Print "Force killing MCP server..."; Kill].
Proof.
  intro w.
  destruct (stop_mcp_server_escalates_and_repeats
              "Terminating MCP server..." "Force killing MCP server..." w)
    as (_ & _ & _ & _ & tr1 & tr2 & H1 & _ & _ & _ & _ & Hrun).
  exists tr1. split; [exact H1|].
  exact (Hrun (mkPopen stubborn_server Running) eq_refl eq_refl eq_refl).
Defined.

(** ** C3: when the pipes of the companion are read *)

(** C3, as stated, fails: the loop polls for the exit of the child and
    sleeps, and reads the pipes only after a poll has reported the exit.
    With a child that is gone at the second poll, the log of the supervising
    thread shows the poll that finds it running, the sleep, the poll that
    finds it gone, and only then the read. *)
Lemma pipes_read_after_exit_only :
  let r := run_mcp_server_threaded "0.0.0.0:8000" "flows.py" 5
             (session sample_fs backend_ok (Some crashing_server) []) in
  trace (snd r)
  = [Print "Starting CocoIndex MCP server on 0.0.0.0:8000";
     Print "Using flow file: flows.py";
     Run ["python3"; "-c"; "import cocoindex"] None;
     Print "Starting MCP server with command: python3 -m cocoindex.cli server flows.py --address 0.0.0.0:8000";
     Spawn ["python3"; "-m"; "cocoindex.cli"; "server"; "flows.py"; "--address"; "0.0.0.0:8000"];
     Poll None;
     Sleep 0.1;
     Poll (Some 1%Z);
     Communicate;
     Print "MCP Server stderr: Traceback";
     Poll (Some 1%Z)] /\
  wait_then_read (trace (snd r)).
Proof.
  split; [reflexivity|].
  exists [Print "Starting CocoIndex MCP server on 0.0.0.0:8000";
          Print "Using flow file: flows.py";
          Run ["python3"; "-c"; "import cocoindex"] None;
          Print "Starting MCP server with command: python3 -m cocoindex.cli server flows.py --address 0.0.0.0:8000";
          Spawn ["python3"; "-m"; "cocoindex.cli"; "server"; "flows.py"; "--address"; "0.0.0.0:8000"];
          Poll None;
          Sleep 0.1],
         1%Z,
         [Print "MCP Server stderr: Traceback"; Poll (Some 1%Z)].
  split; [reflexivity|].
  intro Hin. simpl in Hin.
  repeat (destruct Hin as [Hin|Hin]; [discriminate Hin|]). exact Hin.
Qed.

Lemma supervise_S (fuel : nat) (w : World) :
  supervise (S fuel) w
  = if shutdown_event w then (Ret tt, w)
    else (r <- poll ;;
          match r with
          | Some _ =>
              out <- communicate ;;
              when (negb (is_empty (fst out))) (print ("MCP Server stdout: " ++ fst out)) ;;
              when (negb (is_empty (snd out))) (print ("MCP Server stderr: " ++ snd out))
          | None => sleep 0.1 ;; supervise fuel
          end) w.
Proof. reflexivity. Qed.

Lemma supervise_log_shape (fuel : nat) (w : World) :
  exists tr,
    trace (snd (supervise fuel w)) = (trace w ++ tr)%list /\ supervision_log tr.
Proof.
  revert w. induction fuel as [|fuel IH]; intro w.
  { exists []. rewrite app_nil_r. split; [reflexivity|constructor]. }
  rewrite supervise_S.
  destruct (shutdown_event w).
  { exists []. rewrite app_nil_r. split; [reflexivity|constructor]. }
  unfold bind at 1. unfold poll, on_process.
  destruct (mcp_server_process w) as [p|] eqn:Ep.
  2:{ exists []. rewrite app_nil_r. split; [reflexivity|constructor]. }
  destruct (poll_step p) as [[rc|] p'] eqn:Es.
  - unfold bind at 1. unfold communicate, on_process.
    cbn [mcp_server_process with_process].
    destruct (status p').
    + exists [Poll (Some rc); Communicate]. split; [|constructor; constructor].
      cbn. rewrite <- app_assoc. reflexivity.
    + exists [Poll (Some rc); Communicate]. split; [|constructor; constructor].
      cbn. rewrite <- app_assoc. reflexivity.
    + cbn [fst snd]. unfold when, bind, print, ret.
      destruct (negb (is_empty (child_stdout (proc p'))));
        destruct (negb (is_empty (child_stderr (proc p'))));
        eexists; (split; [cbn; rewrite <- ?app_assoc; reflexivity|]);
        constructor; repeat constructor.
  - rewrite (bind_ret_eq (sleep 0.1) _ _
               (emit (Sleep 0.1) (with_process (Some p') (emit (Poll None) w))) tt eq_refl).
    destruct (IH (emit (Sleep 0.1) (with_process (Some p') (emit (Poll None) w))))
      as (tr & Htr & Hshape).
    exists (Poll None :: Sleep 0.1 :: tr). split; [|constructor; exact Hshape].
    rewrite Htr. cbn. rewrite <- !app_assoc. reflexivity.
Qed.

Lemma poll_running (w : World) (c : child) :
  mcp_server_process w = Some (mkPopen c Running) ->
  poll w
  = match exits_after c with
    | Some O =>
        (Ret (Some (exit_code c)),
         with_process (Some (mkPopen c (Exited (exit_code c))))
                      (emit (Poll (Some (exit_code c))) w))
    | Some (S n) =>
        (Ret None,
         with_process
           (Some (mkPopen (mkChild (Some n) (exit_code c) (child_stdout c) (child_stderr c)
                                   (sigterm_delay c)) Running))
           (emit (Poll None) w))
    | None => (Ret None, with_process (Some (mkPopen c Running)) (emit (Poll None) w))
    end.
Proof.
  intro Hp. unfold poll, on_process. rewrite Hp. unfold poll_step. cbn [status proc].
  destruct (exits_after c) as [[|n]|]; reflexivity.
Qed.

Lemma supervise_reads_at_exit (n : nat) :
  forall (fuel : nat) (w : World) (c : child),
    shutdown_event w = false ->
    mcp_server_process w = Some (mkPopen c Running) ->
    exits_after c = Some n ->
    (n < fuel)%nat ->
    exists prints w',
      supervise fuel w = (Ret tt, w') /\
      trace w'
      = (trace w ++ waits n ++ Poll (Some (exit_code c)) :: Communicate :: prints)%list /\
      Forall is_print prints.
Proof.
  induction n as [|n IH]; intros fuel w c Hsd Hp Hn Hlt.
  - destruct fuel as [|fuel]; [lia|].
    rewrite supervise_S, Hsd.
    pose proof (poll_running w c Hp) as Hpoll. rewrite Hn in Hpoll.
    rewrite (bind_ret_eq _ _ _ _ _ Hpoll).
    unfold bind at 1. unfold communicate, on_process.
    cbn [mcp_server_process with_process status proc fst snd].
    unfold when, bind, print, ret.
    destruct (negb (is_empty (child_stdout c)));
      destruct (negb (is_empty (child_stderr c)));
      eexists; eexists; (split; [reflexivity|]);
      (split; [cbn; rewrite <- ?app_assoc; reflexivity|]); repeat constructor.
  - destruct fuel as [|fuel]; [lia|].
    rewrite supervise_S, Hsd.
    pose proof (poll_running w c Hp) as Hpoll. rewrite Hn in Hpoll.
    rewrite (bind_ret_eq _ _ _ _ _ Hpoll).
    set (c' := mkChild (Some n) (exit_code c) (child_stdout c) (child_stderr c)
                       (sigterm_delay c)).
    set (w' := emit (Sleep 0.1) (with_process (Some (mkPopen c' Running)) (emit (Poll None) w))).
    rewrite (bind_ret_eq (sleep 0.1) _ _ w' tt eq_refl).
    destruct (IH fuel w' c' Hsd eq_refl eq_refl ltac:(lia)) as (prints & w'' & Hr & Htr & Hpr).
    exists prints, w''. split; [exact Hr|]. split; [|exact Hpr].
    rewrite Htr. unfold w'. cbn. rewrite <- !app_assoc. reflexivity.
Qed.

(** C3, amended.  While the child is running the supervising loop only
    polls for its exit and sleeps a tenth of a second; the pipes are read
    once, right after the poll that reports the exit, and not before: the
    log of the loop is a run of poll-and-sleep rounds, ended by nothing or by
    that poll, the read and the printing.  A child left alone that exits
    after [n] polls is read after [n] such rounds, given that no shutdown is
    requested and the loop is followed that far. *)
Theorem supervisor_reads_pipes_after_exit (fuel : nat) (w : World) :
  (exists tr,
     trace (snd (supervise fuel w)) = (trace w ++ tr)%list /\ supervision_log tr) /\
  (forall (c : child) (n : nat),
     shutdown_event w = false ->
     mcp_server_process w = Some (mkPopen c Running) ->
     exits_after c = Some n ->
     (n < fuel)%nat ->
     exists prints w',
       supervise fuel w = (Ret tt, w') /\
       trace w'
       = (trace w ++ waits n ++ Poll (Some (exit_code c)) :: Communicate :: prints)%list /\
       Forall is_print prints).
Proof.
  split.
  - apply supervise_log_shape.
  - intros c n. apply supervise_reads_at_exit.
Qed.

Lemma supervisor_reads_pipes_witness :
  let w := with_process (Some (mkPopen crashing_server Running))
             (session sample_fs backend_ok (Some crashing_server) []) in
  exists prints w',
    supervise 5 w = (Ret tt, w') /\
    trace w' = ([] ++ waits 1 ++ Poll (Some 1%Z) :: Communicate :: prints)%list /\
    Forall is_print prints.
Proof.
  intro w.
  refine (proj2 (supervisor_reads_pipes_after_exit 5 w) crashing_server 1%nat
            eq_refl eq_refl eq_refl _).
  repeat constructor.
Defined.

(** ** C4: the exit of the companion in the combined mode *)

(** In [watch_and_index.py] a server command that ends with a nonzero status
    ends the whole process with status 1. *)
Lemma container_server_failure_exits (w : World) (d : Q) (rc : Z) (out err : string) :
  oracle w (nruns w)
    (WatchAndIndex.server_cmd
       (match environ w "APP_TARGET" with Some v => v | None => "python/cocoindex/cli.py" end)
       (match environ w "ADDRESS" with Some v => v | None => "0.0.0.0:8000" end))
  = Exits d rc out err ->
  rc <> 0%Z ->
  fst (WatchAndIndex.start_mcp_server w) = OsExit 1.
Proof.
  intros Ho Hrc.
  unfold WatchAndIndex.start_mcp_server, try_, bind, WatchAndIndex.MCP_ADDRESS,
    WatchAndIndex.APP_TARGET, WatchAndIndex.environ_get, print, subprocess_run.
  cbn [environ oracle nruns emit fst snd]. rewrite Ho.
  assert (Hz : (rc =? 0)%Z = false) by (apply Z.eqb_neq; exact Hrc).
  cbn [andb]. rewrite Hz. reflexivity.
Qed.

(** C4 fails on [standalone_watcher.py].  The supervising thread never sets
    the shutdown flag and never ends the process.  In a combined session
    whose server is gone at the second poll with status 1, the thread logs
    the output and ends, [main] goes on to start the observer and waits; a
    termination signal received later ends the process with status 0. *)
Theorem companion_crash_not_surfaced :
  (forall (addr ff : string) (fuel : nat) (w : World),
     shutdown_event (snd (run_mcp_server_threaded addr ff fuel w)) = shutdown_event w /\
     forall n, fst (run_mcp_server_threaded addr ff fuel w) <> OsExit n) /\
  (let r := main combined_args 5
              (session sample_fs backend_ok (Some crashing_server) []) in
   fst r = Blocks /\
   shutdown_event (snd r) = false /\
   mcp_server_thread (snd r) = Some false /\
   In (Poll (Some 1%Z)) (trace (snd r)) /\
   In ObserverStart (trace (snd r))) /\
  exit_status (fst (main combined_args 5
                      (session sample_fs backend_ok (Some crashing_server) [Signal 15])))
  = Some 0%Z.
Proof.
  split; [|split].
  - intros addr ff fuel w.
    destruct (tame_run_mcp_server_threaded (fun _ => True) (fun _ => False)
                (fun _ _ => I) addr ff fuel w) as [[[_ Hs] _] Hx].
    split; [exact Hs|]. intros n Hn. exact (Hx n Hn).
  - vm_compute. repeat split; tauto.
  - reflexivity.
Qed.

(** ** C1: calls of [on_any_event] from several threads *)

(** C1, as stated, fails: the only lock is held around the debounce test and
    released before the indexing run starts.  With the default window, a
    call whose clock reads 1762000000 is accepted and starts its run; a call
    on another thread three seconds later is accepted as well, and both runs
    are in flight. *)
Lemma two_runs_in_flight :
  exists s,
    Threads.exec (Threads.start (init "/w" "/w/main.py" default_debounce_seconds))
      [Threads.Deliver 0 a_file_event 1762000000;
       Threads.Step 0; Threads.Step 0; Threads.Step 0;
       Threads.Deliver 1 a_file_event 1762000003;
       Threads.Step 1; Threads.Step 1; Threads.Step 1]
    = Some s /\
    Threads.pcs s 0%nat = Threads.Indexing 1762000000 /\
    Threads.pcs s 1%nat = Threads.Indexing 1762000003 /\
    Threads.locked s = false /\
    Threads.runs_in_flight s 2 = 2%nat.
Proof. eexists. split; [reflexivity|]. repeat split. Qed.

Lemma upd_same (f : nat -> Threads.pc) (i : nat) (p : Threads.pc) :
  Threads.upd f i p i = p.
Proof. unfold Threads.upd. rewrite Nat.eqb_refl. reflexivity. Qed.

Lemma upd_other (f : nat -> Threads.pc) (i j : nat) (p : Threads.pc) :
  j <> i -> Threads.upd f i p j = f j.
Proof.
  intro H. unfold Threads.upd. destruct (Nat.eqb_spec j i); [contradiction|reflexivity].
Qed.

(** A thread moving to a place outside the lock that carries no accepted
    reading changes nothing for the others. *)
Lemma mutex_upd_outside (s : Threads.state) (i : nat) (p : Threads.pc) (lk : bool) :
  mutex s -> Threads.in_lock p = false ->
  (Threads.in_lock (Threads.pcs s i) = true -> lk = false) ->
  (Threads.in_lock (Threads.pcs s i) = false -> lk = Threads.locked s) ->
  mutex (Threads.mkState (Threads.handler s) lk (Threads.upd (Threads.pcs s) i p)).
Proof.
  intros [Hl Hu] Hp Hin Hout. split; cbn [Threads.pcs Threads.locked].
  - intros j Hj. destruct (Nat.eq_dec j i) as [->|Hne].
    + rewrite upd_same in Hj. congruence.
    + rewrite upd_other in Hj by exact Hne.
      destruct (Threads.in_lock (Threads.pcs s i)) eqn:Ei.
      * exfalso. apply Hne. apply Hu; assumption.
      * rewrite (Hout eq_refl). apply (Hl j Hj).
  - intros j k Hj Hk.
    destruct (Nat.eq_dec j i) as [->|Hj'].
    { rewrite upd_same in Hj. congruence. }
    destruct (Nat.eq_dec k i) as [->|Hk'].
    { rewrite upd_same in Hk. congruence. }
    rewrite upd_other in Hj, Hk by assumption. apply Hu; assumption.
Qed.

Lemma separated_upd_weaker (s : Threads.state) (i : nat) (p : Threads.pc) (lk : bool) :
  separated s ->
  (forall t, Threads.accepted_at p = Some t -> Threads.accepted_at (Threads.pcs s i) = Some t) ->
  separated (Threads.mkState (Threads.handler s) lk (Threads.upd (Threads.pcs s) i p)).
Proof.
  intros [Hle Hsep] Hp. split; cbn [Threads.pcs Threads.handler].
  - intros j t Hj. destruct (Nat.eq_dec j i) as [->|Hne].
    + rewrite upd_same in Hj. apply (Hle i). apply Hp. exact Hj.
    + rewrite upd_other in Hj by exact Hne. apply (Hle j). exact Hj.
  - intros j k tj tk Hjk Hj Hk.
    assert (Hj' : Threads.accepted_at (Threads.pcs s j) = Some tj).
    { destruct (Nat.eq_dec j i) as [->|Hne];
        [rewrite upd_same in Hj; apply Hp; exact Hj
        |rewrite upd_other in Hj by exact Hne; exact Hj]. }
    assert (Hk' : Threads.accepted_at (Threads.pcs s k) = Some tk).
    { destruct (Nat.eq_dec k i) as [->|Hne];
        [rewrite upd_same in Hk; apply Hp; exact Hk
        |rewrite upd_other in Hk by exact Hne; exact Hk]. }
    apply (Hsep j k); assumption.
Qed.

Lemma step_preserves (s s' : Threads.state) (l : Threads.label) :
  0 <= debounce_seconds (Threads.handler s) ->
  Threads.step s l = Some s' ->
  mutex s -> separated s ->
  mutex s' /\ separated s' /\
  debounce_seconds (Threads.handler s') = debounce_seconds (Threads.handler s).
Proof.
  intros Hw Hstep Hm Hsep.
  destruct l as [i ev t|i]; cbn [Threads.step] in Hstep.
  - destruct (Threads.pcs s i) eqn:Ei; try discriminate.
    destruct (is_directory ev); inversion Hstep; subst; clear Hstep.
    + repeat split; try apply Hm; try apply Hsep.
    + split; [|split; [|reflexivity]].
      * apply mutex_upd_outside; rewrite ?Ei; cbn; try assumption; try reflexivity;
          try discriminate.
      * apply separated_upd_weaker; [assumption|]. cbn. discriminate.
  - destruct (Threads.pcs s i) as [|t|t|t|t] eqn:Ei; try discriminate.
    + (* line 52: the lock is taken *)
      destruct (Threads.locked s) eqn:El; [discriminate|].
      inversion Hstep; subst; clear Hstep.
      split; [|split; [|reflexivity]].
      * destruct Hm as [Hl Hu].
        assert (Hnone : forall j, j <> i ->
                  Threads.in_lock (Threads.upd (Threads.pcs s) i (Threads.Holding t) j)
                  = true -> False).
        { intros j Hne Hj. rewrite upd_other in Hj by exact Hne.
          specialize (Hl j Hj). congruence. }
        split; cbn [Threads.pcs Threads.locked]; [reflexivity|].
        intros j k Hj Hk.
        destruct (Nat.eq_dec j i) as [->|Hj']; [|exfalso; exact (Hnone j Hj' Hj)].
        destruct (Nat.eq_dec k i) as [->|Hk']; [reflexivity|exfalso; exact (Hnone k Hk' Hk)].
      * apply separated_upd_weaker; [assumption|]. cbn. discriminate.
    + (* lines 53-55: the test, under the lock *)
      destruct (debounce (Threads.handler s) t) as [go h'] eqn:Ed.
      assert (Hfst : fst (debounce (Threads.handler s) t) = go) by (rewrite Ed; reflexivity).
      assert (Hsnd : snd (debounce (Threads.handler s) t) = h') by (rewrite Ed; reflexivity).
      destruct go; inversion Hstep; subst s'; clear Hstep.
      * (* accepted *)
        pose proof (debounce_accept_stores _ _ Hfst) as Hst. rewrite Hsnd in Hst.
        apply debounce_accept_iff in Hfst. clear Hsnd Ed. subst h'.
        destruct Hm as [Hl Hu]. destruct Hsep as [Hle Hpair].
        assert (Hback : forall j, Threads.in_lock
                          (Threads.upd (Threads.pcs s) i (Threads.Stored t) j) = true ->
                        Threads.in_lock (Threads.pcs s j) = true).
        { intros j Hj. destruct (Nat.eq_dec j i) as [->|Hne];
            [rewrite Ei; reflexivity|rewrite upd_other in Hj by exact Hne; exact Hj]. }
        assert (Hold : forall j tj, j <> i ->
                  Threads.accepted_at (Threads.upd (Threads.pcs s) i (Threads.Stored t) j)
                  = Some tj ->
                  Threads.accepted_at (Threads.pcs s j) = Some tj /\
                  tj <= last_trigger_time (Threads.handler s)).
        { intros j tj Hne Hj. rewrite upd_other in Hj by exact Hne.
          split; [exact Hj|]. apply (Hle j). exact Hj. }
        split; [|split; [|reflexivity]].
        -- split; cbn [Threads.pcs Threads.locked].
           ++ intros j Hj. apply (Hl j). apply Hback. exact Hj.
           ++ intros j k Hj Hk. apply Hu; apply Hback; assumption.
        -- split; cbn [Threads.pcs Threads.handler set_last_trigger_time
                         last_trigger_time debounce_seconds].
           ++ intros j tj Hj. destruct (Nat.eq_dec j i) as [->|Hne].
              ** rewrite upd_same in Hj. cbn in Hj. inversion Hj. subst. lra.
              ** destruct (Hold j tj Hne Hj) as [_ Hb]. lra.
           ++ intros j k tj tk Hjk Hj Hk.
              destruct (Nat.eq_dec j i) as [->|Hj']; destruct (Nat.eq_dec k i) as [->|Hk'].
              ** contradiction.
              ** rewrite upd_same in Hj. cbn in Hj. inversion Hj. subst tj.
                 destruct (Hold k tk Hk' Hk) as [_ Hb]. left. lra.
              ** rewrite upd_same in Hk. cbn in Hk. inversion Hk. subst tk.
                 destruct (Hold j tj Hj' Hj) as [_ Hb]. right. lra.
              ** destruct (Hold j tj Hj' Hj) as [Hoj _].
                 destruct (Hold k tk Hk' Hk) as [Hok _].
                 apply (Hpair j k); assumption.
      * (* rejected: line 54 *)
        pose proof (debounce_reject_unchanged _ _ Hfst) as Hst. rewrite Hsnd in Hst.
        clear Hsnd Ed. subst h'.
        split; [|split; [|reflexivity]].
        -- apply mutex_upd_outside; rewrite ?Ei; cbn; try assumption; try reflexivity;
             try discriminate.
        -- apply separated_upd_weaker; [assumption|]. cbn. discriminate.
    + (* the lock is released, the run starts *)
      inversion Hstep; subst; clear Hstep.
      split; [|split; [|reflexivity]].
      * apply mutex_upd_outside; rewrite ?Ei; cbn; try assumption; try reflexivity;
          try discriminate.
      * apply separated_upd_weaker; [assumption|]. rewrite Ei. cbn. tauto.
    + (* the run ends *)
      inversion Hstep; subst; clear Hstep.
      split; [|split; [|reflexivity]].
      * apply mutex_upd_outside; rewrite ?Ei; cbn; try assumption; try reflexivity;
          try discriminate.
      * apply separated_upd_weaker; [assumption|]. cbn. discriminate.
Qed.

Lemma exec_preserves (ls : list Threads.label) :
  forall s s' : Threads.state,
    0 <= debounce_seconds (Threads.handler s) ->
    Threads.exec s ls = Some s' ->
    mutex s -> separated s ->
    mutex s' /\ separated s' /\
    debounce_seconds (Threads.handler s') = debounce_seconds (Threads.handler s).
Proof.
  induction ls as [|l ls IH]; intros s s' Hw Hex Hm Hsep; cbn [Threads.exec] in Hex.
  - inversion Hex; subst. repeat split; try apply Hm; try apply Hsep.
  - destruct (Threads.step s l) as [s1|] eqn:Es; [|discriminate].
    destruct (step_preserves s s1 l Hw Es Hm Hsep) as (Hm1 & Hsep1 & Hw1).
    destruct (IH s1 s' ltac:(rewrite Hw1; exact Hw) Hex Hm1 Hsep1) as (Hm' & Hsep' & Hw').
    split; [exact Hm'|]. split; [exact Hsep'|]. congruence.
Qed.

Lemma start_invariant (h : CocoIndexEventHandler) :
  mutex (Threads.start h) /\ separated (Threads.start h).
Proof.
  repeat split; cbn; intros; discriminate.
Qed.

(** C1, amended.  The handler has one lock, taken around the debounce test
    and released before the indexing run starts: at most one call is inside
    the test at a time, and a call that reaches the test is accepted or
    dropped by the gate alone, whatever runs are in flight.  Runs may
    overlap; with a window that is not negative, any two runs in flight were
    accepted with clock readings at least a window apart. *)
Theorem lock_guards_debounce_only (h : CocoIndexEventHandler)
    (ls : list Threads.label) (s : Threads.state) :
  0 <= debounce_seconds h ->
  Threads.exec (Threads.start h) ls = Some s ->
  (forall i j, Threads.in_lock (Threads.pcs s i) = true ->
               Threads.in_lock (Threads.pcs s j) = true -> i = j) /\
  (forall i t, Threads.pcs s i = Threads.Holding t ->
     exists s', Threads.step s (Threads.Step i) = Some s' /\
       Threads.pcs s' i
       = if fst (debounce (Threads.handler s) t) then Threads.Stored t else Threads.Idle) /\
  (forall i j ti tj, i <> j ->
     Threads.pcs s i = Threads.Indexing ti -> Threads.pcs s j = Threads.Indexing tj ->
     debounce_seconds h <= ti - tj \/ debounce_seconds h <= tj - ti).
Proof.
  intros Hw Hex.
  destruct (start_invariant h) as [Hm0 Hs0].
  destruct (exec_preserves ls (Threads.start h) s Hw Hex Hm0 Hs0) as (Hm & Hsep & Hwin).
  cbn in Hwin.
  split; [apply Hm|]. split.
  - intros i t Hi. cbn [Threads.step]. rewrite Hi.
    destruct (debounce (Threads.handler s) t) as [go h'].
    destruct go; eexists; (split; [reflexivity|]); cbn; apply upd_same.
  - intros i j ti tj Hij Hi Hj. rewrite <- Hwin.
    apply (proj2 Hsep i j); [exact Hij| |]; [rewrite Hi|rewrite Hj]; reflexivity.
Qed.

Lemma lock_guards_debounce_only_witness :
  let h := init "/w" "/w/main.py" default_debounce_seconds in
  let ls := [Threads.Deliver 0 a_file_event 1762000000;
             Threads.Step 0; Threads.Step 0; Threads.Step 0;
             Threads.Deliver 1 a_file_event 1762000003;
             Threads.Step 1; Threads.Step 1; Threads.Step 1] in
  0 <= debounce_seconds h /\
  forall s, Threads.exec (Threads.start h) ls = Some s ->
    debounce_seconds h <= 1762000000 - 1762000003 \/
    debounce_seconds h <= 1762000003 - 1762000000.
Proof.
  intros h ls.
  assert (Hw : 0 <= debounce_seconds h) by Qle_by_computation.
  split; [exact Hw|].
  intros s Hex.
  refine (proj2 (proj2 (lock_guards_debounce_only h ls s Hw Hex)) 0%nat 1%nat _ _ _ _ _).
  - discriminate.
  - inversion Hex. reflexivity.
  - inversion Hex. reflexivity.
Defined.


(** * Further properties of the code *)

(** ** The debounce gate: bursts, and a window that is not positive *)

Lemma burst_rejected (ts : list Q) (h : CocoIndexEventHandler) :
  Forall (fun t => t - last_trigger_time h < debounce_seconds h) ts ->
  accepted h ts = [] /\ after_calls h ts = h.
Proof.
  induction 1 as [|t ts Ht _ IH]; simpl; [split; reflexivity|].
  assert (E : fst (debounce h t) = false).
  { destruct (fst (debounce h t)) eqn:E; [|reflexivity].
    apply debounce_accept_iff in E. lra. }
  rewrite E, (debounce_reject_unchanged _ _ E). exact IH.
Qed.

(** X1.  A burst is coalesced: once a call is accepted at reading [t0],
    every later call whose reading is less than a window after [t0] (a
    reading before [t0], after the clock was set back, included) is dropped,
    so that the burst triggers one run and the stored timestamp stays
    [t0]. *)
Theorem burst_coalesced (h : CocoIndexEventHandler) (t0 : Q) (ts : list Q) :
  fst (debounce h t0) = true ->
  Forall (fun t => t - t0 < debounce_seconds h) ts ->
  accepted h (t0 :: ts) = [t0] /\
  after_calls h (t0 :: ts) = set_last_trigger_time h t0.
Proof.
  intros Hacc Hburst. simpl. rewrite Hacc, (debounce_accept_stores _ _ Hacc).
  destruct (burst_rejected ts (set_last_trigger_time h t0) Hburst) as [Ha Hh].
  rewrite Ha, Hh. split; reflexivity.
Qed.

Lemma burst_coalesced_witness :
  accepted (init "/w" "/w/main.py" 2) [100; 100.2; 100.4; 99] = [100].
Proof.
  refine (proj1 (burst_coalesced (init "/w" "/w/main.py" 2) 100 [100.2; 100.4; 99]
                   eq_refl _)).
  repeat constructor.
Defined.

Lemma sorted_spaced (ts : list Q) (w prev : Q) :
  w <= 0 -> StronglySorted Qle ts ->
  Forall (fun t => prev <= t) ts -> spaced w prev ts.
Proof.
  intros Hw. revert prev.
  induction ts as [|t ts IH]; intros prev Hs Hp; simpl; [exact I|].
  inversion Hs as [|? ? Hs' Hle]; subst. inversion Hp as [|? ? Hpt _]; subst.
  split; [lra|]. apply IH; assumption.
Qed.

(** X2.  A window that is zero or negative disables the debouncing: with a
    clock that does not go back, every call is accepted. *)
Theorem nonpositive_window_accepts_all (h : CocoIndexEventHandler) (ts : list Q) :
  debounce_seconds h <= 0 ->
  StronglySorted Qle ts ->
  Forall (fun t => last_trigger_time h <= t) ts ->
  accepted h ts = ts.
Proof.
  intros Hw Hs Hp. apply spaced_all_accepted. apply sorted_spaced; assumption.
Qed.

Lemma nonpositive_window_witness :
  accepted (init "/w" "/w/main.py" 0) [5; 5; 6] = [5; 5; 6].
Proof.
  apply (nonpositive_window_accepts_all (init "/w" "/w/main.py" 0) [5; 5; 6]).
  - Qle_by_computation.
  - repeat constructor; Qle_by_computation.
  - repeat constructor; Qle_by_computation.
Defined.

(** ** [check_cocoindex_available] and [trigger_indexing]: what is run *)

Lemma check_cocoindex_available_eq (w : World) :
  check_cocoindex_available w
  = (match oracle w (nruns w) probe_cmd with
     | Denied => Raise PermissionError
     | o => Ret (probe_ok o)
     end,
     emit (Run probe_cmd (Some 10)) (bump w)).
Proof.
  unfold check_cocoindex_available, try_, bind, subprocess_run, probe_ok, ret.
  destruct (oracle w (nruns w) probe_cmd) as [d rc out err| | |]; try reflexivity.
  destruct (Qltb 10 d); reflexivity.
Qed.

(** X3.  [check_cocoindex_available] makes the version call once, with a
    timeout of ten seconds.  It returns [True] exactly when the call ends in
    time with status 0, and [False] when it times out, ends with another
    status or finds no executable; an executable that cannot be launched
    ([PermissionError]) is not caught: the exception leaves the function. *)
Theorem check_cocoindex_available_result (w : World) :
  check_cocoindex_available w
  = (match oracle w (nruns w) probe_cmd with
     | Denied => Raise PermissionError
     | o => Ret (probe_ok o)
     end,
     emit (Run probe_cmd (Some 10)) (bump w)).
Proof. apply check_cocoindex_available_eq. Qed.

Lemma trigger_indexing_runs (self : CocoIndexEventHandler) (w : World) :
  exists tr,
    fst (trigger_indexing self w)
    = (if escapes self w then Raise UnicodeEncodeError else Ret tt) /\
    trace (snd (trigger_indexing self w)) = (trace w ++ tr)%list /\
    starts tr = 1%nat /\
    commands tr
    = if probe_ok (oracle w (nruns w) probe_cmd)
      then [Run probe_cmd (Some 10); Run (update_cmd (app_target self)) (Some 300)]
      else [Run probe_cmd (Some 10)].
Proof.
  run_cases self w
    ltac:(eexists; rewrite <- ?app_assoc;
          split; [reflexivity|]; split; [reflexivity|]; split; reflexivity).
Qed.

(** X4.  One call of [trigger_indexing] starts one indexing run and runs at
    most two commands: the version call, and after it the update command
    with a timeout of 300 seconds, the latter exactly when the version call
    succeeded.  It returns, except in one case: when the update command
    times out on a standard output that cannot encode the pictograph of
    line 90, [UnicodeEncodeError] leaves the call. *)
Theorem trigger_indexing_commands (self : CocoIndexEventHandler) (w : World) :
  exists tr,
    fst (trigger_indexing self w)
    = (if negb (stdout_unicode w)
          && probe_ok (oracle w (nruns w) probe_cmd)
          && timed_out 300 (oracle w (S (nruns w)) (update_cmd (app_target self)))
       then Raise UnicodeEncodeError else Ret tt) /\
    trace (snd (trigger_indexing self w)) = (trace w ++ tr)%list /\
    starts tr = 1%nat /\
    commands tr
    = if probe_ok (oracle w (nruns w) probe_cmd)
      then [Run probe_cmd (Some 10); Run (update_cmd (app_target self)) (Some 300)]
      else [Run probe_cmd (Some 10)].
Proof. apply trigger_indexing_runs. Qed.

(** ** [signal_handler] *)

Ltac stop_summary_leaf :=
  cbn -[Qle_bool grace_period];
  try match goal with
      | H : Qle_bool _ _ = _ |- _ => rewrite !H; cbn -[Qle_bool grace_period]
      end;
  split; [reflexivity|]; split; [eauto|]; split; [reflexivity|]; split; [reflexivity|];
  eexists; split; [rewrite <- ?app_assoc; reflexivity|]; blocked_bound.

Lemma stop_mcp_server_summary (announce escalate : string) (w : World) :
  fst (stop_mcp_server announce escalate w) = Ret tt /\
  reaped (snd (stop_mcp_server announce escalate w)) /\
  shutdown_event (snd (stop_mcp_server announce escalate w)) = shutdown_event w /\
  observer (snd (stop_mcp_server announce escalate w)) = observer w /\
  exists tr,
    trace (snd (stop_mcp_server announce escalate w)) = (trace w ++ tr)%list /\
    blocked tr <= grace_period.
Proof.
  destruct w as [f mk env uni exe orc n comp inb sd obs [[[ea code out err delay] st]|] th tr].
  2:{ cbn. split; [reflexivity|]. split; [exact I|]. split; [reflexivity|].
      split; [reflexivity|]. exists []. rewrite app_nil_r. split; [reflexivity|].
      blocked_bound. }
  unfold stop_mcp_server, reaped, bind, poll, on_process, poll_step, try_, print,
    terminate, wait, kill.
  cbn [mcp_server_process status proc exits_after].
  destruct st as [| |rc].
  - destruct ea as [[|k]|].
    + stop_summary_leaf.
    + destruct delay as [d|]; [destruct (Qle_bool d grace_period) eqn:Eq|];
        stop_summary_leaf.
    + destruct delay as [d|]; [destruct (Qle_bool d grace_period) eqn:Eq|];
        stop_summary_leaf.
  - destruct delay as [d|]; [destruct (Qle_bool d grace_period) eqn:Eq|];
      stop_summary_leaf.
  - stop_summary_leaf.
Qed.

Lemma signal_handler_summary (signum : Z) (w : World) :
  fst (signal_handler signum w) = Raise (SystemExit 0) /\
  shutdown_event (snd (signal_handler signum w)) = true /\
  reaped (snd (signal_handler signum w)) /\
  exists tr,
    trace (snd (signal_handler signum w))
    = (trace w ++ Print "Received signal, shutting down..."
         :: (if observer w then [ObserverStop] else []) ++ tr)%list /\
    blocked tr <= grace_period.
Proof.
  unfold signal_handler.
  set (w1 := emit (Print "Received signal, shutting down...") w).
  rewrite (bind_ret_eq (print "Received signal, shutting down...") _ w w1 tt eq_refl).
  set (w2 := with_shutdown_event true w1).
  rewrite (bind_ret_eq (fun w0 => (Ret tt, with_shutdown_event true w0)) _ w1 w2 tt eq_refl).
  set (w3 := if observer w then emit ObserverStop w2 else w2).
  assert (H3 : (fun w0 => when (observer w0) (do_ ObserverStop) w0) w2 = (Ret tt, w3)).
  { unfold w3, w2, w1. cbn [observer with_shutdown_event emit].
    destruct (observer w); reflexivity. }
  rewrite (bind_ret_eq _ _ w2 w3 tt H3).
  destruct (stop_mcp_server_summary "Terminating MCP server..." "Force killing MCP server..." w3)
    as (Hr & Hreap & Hsd & _ & tr & Htr & Hb).
  destruct (stop_mcp_server "Terminating MCP server..." "Force killing MCP server..." w3)
    as [r w4] eqn:Es.
  cbn [fst snd] in *. subst r.
  rewrite (bind_ret_eq _ _ w3 w4 tt Es).
  cbn [sys_exit raise fst snd].
  split; [reflexivity|]. split.
  { rewrite Hsd. unfold w3, w2. destruct (observer w); reflexivity. }
  split; [exact Hreap|].
  exists tr. split; [|exact Hb].
  rewrite Htr. unfold w3, w2, w1.
  destruct (observer w); cbn; rewrite <- ?app_assoc; reflexivity.
Qed.

(** X5.  [signal_handler] always ends in [sys.exit(0)]: it sets the shutdown
    flag, stops the observer when there is one, and leaves no companion
    running (the child, if any, has exited, stopped within the grace period
    or been killed); the time it waits is the grace period of five seconds
    at most. *)
Theorem signal_handler_shuts_down (signum : Z) (w : World) :
  fst (signal_handler signum w) = Raise (SystemExit 0) /\
  shutdown_event (snd (signal_handler signum w)) = true /\
  reaped (snd (signal_handler signum w)) /\
  exists tr,
    trace (snd (signal_handler signum w))
    = (trace w ++ Print "Received signal, shutting down..."
         :: (if observer w then [ObserverStop] else []) ++ tr)%list /\
    blocked tr <= grace_period.
Proof. apply signal_handler_summary. Qed.

(** ** The wait loop of [main]: events and signals *)


Lemma on_any_event_effect (self : CocoIndexEventHandler) (ev : event) (now : Q) (w : World) :
  exists r w' tr,
    on_any_event self ev now w = (r, w') /\
    (r = Ret (if is_directory ev then self else snd (debounce self now)) \/
     r = Raise UnicodeEncodeError /\ stdout_unicode w = false) /\
    trace w' = (trace w ++ tr)%list /\
    shutdown_event w' = shutdown_event w /\
    stdout_unicode w' = stdout_unicode w /\
    starts tr = (if is_directory ev then 0
                 else if fst (debounce self now) then 1 else 0)%nat.
Proof.
  unfold on_any_event.
  destruct (is_directory ev).
  { exists (Ret self), w, []. rewrite app_nil_r. repeat split. left. reflexivity. }
  destruct (debounce self now) as [go self'] eqn:E. cbn [fst snd].
  destruct go.
  2:{ exists (Ret self'), w, []. rewrite app_nil_r. repeat split. left. reflexivity. }
  set (w1 := emit (Print ("Change detected: " ++ src_path ev)) w).
  rewrite (bind_ret_eq (print ("Change detected: " ++ src_path ev)) _ w w1 tt eq_refl).
  destruct (trigger_indexing_runs self' w1) as (tr & Hr & Htr & Hst & _).
  pose proof (trigger_indexing_same_session self' w1) as (Huni & _ & _ & _ & Hsd & _).
  destruct (trigger_indexing self' w1) as [r w2] eqn:Et.
  cbn [fst snd] in *.
  assert (Hlog : trace w2 = (trace w ++ Print ("Change detected: " ++ src_path ev) :: tr)%list).
  { rewrite Htr. unfold w1. cbn [trace emit]. rewrite <- app_assoc. reflexivity. }
  destruct (escapes self' w1) eqn:Hesc; subst r.
  - rewrite (bind_raise_eq _ _ w1 w2 _ Et).
    exists (Raise UnicodeEncodeError), w2, (Print ("Change detected: " ++ src_path ev) :: tr).
    split; [reflexivity|]. split.
    { right. split; [reflexivity|].
      unfold escapes in Hesc. change (stdout_unicode w1) with (stdout_unicode w) in Hesc.
      destruct (stdout_unicode w); [discriminate Hesc|reflexivity]. }
    split; [exact Hlog|]. split; [exact Hsd|]. split; [exact Huni|exact Hst].
  - rewrite (bind_ret_eq _ _ w1 w2 tt Et).
    exists (Ret self'), w2, (Print ("Change detected: " ++ src_path ev) :: tr).
    split; [reflexivity|]. split; [left; reflexivity|].
    split; [exact Hlog|]. split; [exact Hsd|]. split; [exact Huni|exact Hst].
Qed.

Lemma wait_unobserved_outcome (pending : list input) :
  forall w : World,
    shutdown_event w = false ->
    fst (wait_unobserved pending w)
    = (if existsb is_signal pending then Raise (SystemExit 0) else Blocks) /\
    (existsb is_signal pending = true ->
     shutdown_event (snd (wait_unobserved pending w)) = true /\
     reaped (snd (wait_unobserved pending w))) /\
    (existsb is_signal pending = false ->
     exists tr,
       trace (snd (wait_unobserved pending w)) = (trace w ++ tr)%list /\
       starts tr = 0%nat).
Proof.
  induction pending as [|[ev now|signum] rest IH]; intros w Hsd;
    cbn [wait_unobserved]; rewrite Hsd.
  - split; [reflexivity|]. split; [discriminate|].
    intros _. exists []. rewrite app_nil_r. split; reflexivity.
  - cbn [existsb is_signal orb].
    destruct (IH (emit (Sleep 1) w) Hsd) as (Hr & Hsig & Hquiet).
    split; [exact Hr|]. split; [exact Hsig|].
    intro Hns. destruct (Hquiet Hns) as (tr & Htr & Hst).
    exists (Sleep 1 :: tr). split; [|exact Hst].
    rewrite Htr. cbn [trace emit]. rewrite <- app_assoc. reflexivity.
  - cbn [existsb is_signal orb].
    destruct (signal_handler_summary signum (emit (Sleep 1) w)) as (Hr & Hs & Hreap & _).
    destruct (signal_handler signum (emit (Sleep 1) w)) as [r w'] eqn:Esig.
    cbn [fst snd] in *. subst r.
    rewrite (bind_raise_eq _ _ _ _ _ Esig). cbn [fst snd].
    split; [reflexivity|]. split; [intros _; split; assumption|discriminate].
Qed.




Lemma wait_loop_outcome (pending : list input) :
  forall (self : CocoIndexEventHandler) (w : World),
    shutdown_event w = false ->
    fst (wait_loop self pending w)
    = (if existsb is_signal pending then Raise (SystemExit 0) else Blocks) /\
    (existsb is_signal pending = true ->
     shutdown_event (snd (wait_loop self pending w)) = true /\
     reaped (snd (wait_loop self pending w))).
Proof.
  induction pending as [|[ev now|signum] rest IH]; intros self w Hsd;
    cbn [wait_loop]; rewrite Hsd.
  - split; [reflexivity|]. discriminate.
  - cbn [existsb is_signal orb].
    destruct (on_any_event_effect self ev now (emit (Sleep 1) w))
      as (r & w' & tr & Hev & Hres & _ & Hsd' & _).
    rewrite Hev.
    assert (Hsd'' : shutdown_event w' = false) by (rewrite Hsd'; exact Hsd).
    destruct Hres as [Hres|[Hres _]]; subst r.
    + apply IH. exact Hsd''.
    + destruct (wait_unobserved_outcome rest w' Hsd'') as (Hr & Hsig & _).
      split; assumption.
  - cbn [existsb is_signal orb].
    destruct (signal_handler_summary signum (emit (Sleep 1) w)) as (Hr & Hs & Hreap & _).
    destruct (signal_handler signum (emit (Sleep 1) w)) as [r w'] eqn:Esig.
    cbn [fst snd] in *. subst r.
    rewrite (bind_raise_eq _ _ _ _ _ Esig). cbn [fst snd].
    split; [reflexivity|]. intros _. split; assumption.
Qed.

(** X7.  The wait loop ends on a signal only: whatever the file events and
    the outcomes of their indexing runs, it is still waiting while no signal
    has arrived, and the first signal ends it with [sys.exit(0)], the
    shutdown flag set and no companion left running. *)
Theorem wait_loop_ends_on_signal_only (self : CocoIndexEventHandler)
    (pending : list input) (w : World) :
  shutdown_event w = false ->
  fst (wait_loop self pending w)
  = (if existsb is_signal pending then Raise (SystemExit 0) else Blocks) /\
  (existsb is_signal pending = true ->
   shutdown_event (snd (wait_loop self pending w)) = true /\
   reaped (snd (wait_loop self pending w))).
Proof. apply wait_loop_outcome. Qed.

Lemma wait_loop_ends_on_signal_witness :
  fst (wait_loop (init "/w" "/w/main.py" 2)
         [FsEvent a_file_event 100; Signal 15; FsEvent a_file_event 200]
         (session sample_fs backend_absent None []))
  = Raise (SystemExit 0).
Proof.
  exact (proj1 (wait_loop_ends_on_signal_only (init "/w" "/w/main.py" 2)
                  [FsEvent a_file_event 100; Signal 15; FsEvent a_file_event 200]
                  (session sample_fs backend_absent None []) eq_refl)).
Defined.

(** ** A watch-only session of [main] *)





(** ** The arguments of [main] *)

(** X9.  Outside the server-only mode [main] ends with status 1, having
    done nothing but print one error message, when a positional argument is
    missing or empty, and also when the watch root is a directory but the
    application target does not exist. *)
Theorem main_rejects_bad_arguments (args : Args) (fuel : nat) (w : World) :
  mcp_server_only args = false ->
  (truthy (arg_watch_path args) && truthy (arg_app_target args) = false ->
   main args fuel w
   = (Raise (SystemExit 1),
      emit (Print "Error: watch_path and app_target are required unless using --mcp-server-only")
           w)) /\
  (forall wp tgt,
     arg_watch_path args = Some wp -> arg_app_target args = Some tgt ->
     is_empty wp = false -> is_empty tgt = false ->
     fs w wp = Some Dir -> fs w tgt = None ->
     main args fuel w
     = (Raise (SystemExit 1), emit (Print ("Error: " ++ exn_str FileNotFoundError)) w)).
Proof.
  intro Hmode. split.
  - intro Hbad. unfold main. rewrite Hmode.
    destruct (truthy (arg_watch_path args)); destruct (truthy (arg_app_target args));
      try discriminate Hbad; reflexivity.
  - intros wp tgt Hwp Htgt Hne1 Hne2 Hdir Hmissing.
    unfold main. rewrite Hmode, Hwp, Htgt. unfold truthy. rewrite Hne1, Hne2.
    cbn [negb orb].
    unfold bind at 1. unfold try_ at 1. rewrite validate_paths_eq, Hdir, Hmissing.
    reflexivity.
Qed.

Lemma main_rejects_bad_arguments_witness :
  main (mkArgs (Some "/w") None 2 false false "0.0.0.0:8000" "flows.py" false false) 0
       (session sample_fs backend_ok None [])
  = (Raise (SystemExit 1),
     emit (Print "Error: watch_path and app_target are required unless using --mcp-server-only")
          (session sample_fs backend_ok None [])).
Proof.
  exact (proj1 (main_rejects_bad_arguments
                  (mkArgs (Some "/w") None 2 false false "0.0.0.0:8000" "flows.py" false false)
                  O (session sample_fs backend_ok None []) eq_refl) eq_refl).
Defined.

(** ** The server-only mode after its checks *)



(** ** The supervising thread: failed checks, and what it leaves behind *)

(** X11.  In the combined mode a failed check of the server thread is not
    fatal: when the flow file does not exist or the import check ends with a
    nonzero status, [run_mcp_server_threaded] prints the error and returns;
    it starts no process, and leaves the shutdown flag and the global process
    handle as they were. *)
Theorem threaded_preflight_failure_returns (addr ff : string) (fuel : nat) (w : World) :
  (fs w ff = None \/
   exists d rc out err,
     oracle w (nruns w) (import_cmd (sys_executable w)) = Exits d rc out err /\
     rc <> 0%Z) ->
  let r := run_mcp_server_threaded addr ff fuel w in
  fst r = Ret tt /\
  mcp_server_process (snd r) = mcp_server_process w /\
  shutdown_event (snd r) = shutdown_event w /\
  exists tr,
    trace (snd r) = (trace w ++ tr)%list /\ forall cmd, ~ In (Spawn cmd) tr.
Proof.
  intros Hbad r. subst r.
  destruct w as [f mk env uni exe orc n comp inb sd obs pr th tr0].
  cbn [fs oracle nruns sys_executable trace mcp_server_process shutdown_event] in *.
  unfold run_mcp_server_threaded, bind, print, path_exists, try_, subprocess_run, ret.
  cbn [fs emit bump oracle nruns sys_executable fst snd].
  destruct (f ff) as [k|] eqn:Ef; cbn [negb].
  - destruct Hbad as [Hnone | (d & rc & out & err & Ho & Hrc)]; [discriminate|].
    cbn [fs emit bump oracle nruns sys_executable fst snd]. rewrite Ho.
    assert (Hz : (rc =? 0)%Z = false) by (apply Z.eqb_neq; exact Hrc).
    cbn [andb]. rewrite Hz.
    cbn [negb pick is_CalledProcessError emit bump fst snd mcp_server_process
           shutdown_event trace].
    repeat split.
    eexists. rewrite <- ?app_assoc. split; [reflexivity|].
    intros cmd Hin. simpl in Hin.
    repeat (destruct Hin as [Hin|Hin]; [discriminate Hin|]). exact Hin.
  - cbn [emit fst snd mcp_server_process shutdown_event trace].
    repeat split.
    eexists. rewrite <- ?app_assoc. split; [reflexivity|].
    intros cmd Hin. simpl in Hin.
    repeat (destruct Hin as [Hin|Hin]; [discriminate Hin|]). exact Hin.
Qed.

Lemma threaded_preflight_failure_witness :
  fst (run_mcp_server_threaded "0.0.0.0:8000" "flows.py" 5
         (session empty_fs backend_ok (Some crashing_server) []))
  = Ret tt.
Proof.
  exact (proj1 (threaded_preflight_failure_returns "0.0.0.0:8000" "flows.py" 5
                  (session empty_fs backend_ok (Some crashing_server) [])
                  (or_introl eq_refl))).
Defined.


Lemma bind_blocks_eq {A B} (c : M A) (k : A -> M B) (w w' : World) :
  c w = (Blocks, w') -> bind c k w = (Blocks, w').
Proof. intro H. unfold bind. rewrite H. reflexivity. Qed.






(** ** [watch_and_index.py]: the handler, the server thread, the watcher *)


(** X14.  [start_mcp_server] runs the server command built from the
    environment ([APP_TARGET] and [ADDRESS], with their defaults) without a
    timeout.  A server that cannot be started or ends with a nonzero status
    ends the whole process with status 1; a server that ends with status 0
    only ends the thread; while the server runs the call has not
    returned. *)
Theorem start_mcp_server_outcome (w : World) :
  fst (WatchAndIndex.start_mcp_server w)
  = match oracle w (nruns w)
            (WatchAndIndex.server_cmd
               (match environ w "APP_TARGET" with
                | Some v => v
                | None => "python/cocoindex/cli.py"
                end)
               (match environ w "ADDRESS" with Some v => v | None => "0.0.0.0:8000" end)) with
    | Exits _ rc _ _ => if (rc =? 0)%Z then Ret tt else OsExit 1
    | Never => Blocks
    | NotFound | Denied => OsExit 1
    end.
Proof.
  destruct w as [f mk env uni exe orc n comp inb sd obs pr th tr0].
  unfold WatchAndIndex.start_mcp_server, try_, bind, WatchAndIndex.MCP_ADDRESS,
    WatchAndIndex.APP_TARGET, WatchAndIndex.environ_get, print, subprocess_run.
  cbn [environ oracle nruns emit fst snd].
  destruct (orc n _) as [d rc out err| | |]; cbn [andb]; try reflexivity.
  destruct (rc =? 0)%Z; reflexivity.
Qed.

Lemma forever_outcome (pending : list input) :
  forall (delivering : bool) (w : World),
    fst (WatchAndIndex.forever delivering pending w)
    = if existsb is_signal pending then Raise (SystemExit 0) else Blocks.
Proof.
  induction pending as [|[ev now|signum] rest IH]; intros delivering w;
    cbn [WatchAndIndex.forever existsb is_signal orb].
  - reflexivity.
  - destruct delivering.
    + destruct (WatchAndIndex.on_any_event ev (emit (Sleep 1) w)) as [[a|e|n|] w'];
        apply IH.
    + rewrite (bind_ret_eq (sleep 1) _ w (emit (Sleep 1) w) tt eq_refl). apply IH.
  - reflexivity.
Qed.

Lemma tame_forever_handler (pending : list input) (delivering : bool) :
  tame handler_effect (fun _ => True) (WatchAndIndex.forever delivering pending).
Proof.
  revert delivering. induction pending as [|[ev now|signum] rest IH]; intro delivering;
    cbn [WatchAndIndex.forever].
  - apply tame_blocks.
  - destruct delivering.
    + intro w.
      assert (H0 : grows handler_effect w (emit (Sleep 1) w)) by (apply grows_emit; exact I).
      assert (Hev : tame handler_effect (fun _ => True) (WatchAndIndex.on_any_event ev)).
      { unfold WatchAndIndex.on_any_event. repeat (tame_step ltac:(exact I)). }
      destruct (Hev (emit (Sleep 1) w)) as [Hg _].
      destruct (WatchAndIndex.on_any_event ev (emit (Sleep 1) w)) as [[a|e|n|] w'];
        cbn [snd] in Hg;
        match goal with
        | |- context [WatchAndIndex.forever ?d rest w'] =>
            destruct (IH d w') as [Hg' Hx']
        end;
        (split; [|intros; exact I]);
        (apply (grows_trans _ w (emit (Sleep 1) w)); [exact H0|]);
        (apply (grows_trans _ (emit (Sleep 1) w) w'); [exact Hg|]); exact Hg'.
    + repeat (tame_step ltac:(exact I)). apply IH.
  - repeat (tame_step ltac:(exact I)).
    + unfold WatchAndIndex.signal_handler. repeat (tame_step ltac:(exact I)).
    + apply IH.
Qed.

Lemma watcher_rest (w : World) :
  let c := print ("File watcher started. Monitoring " ++ WatchAndIndex.WATCH_PATH
                  ++ " for changes...") ;;
           try_ (fun w => WatchAndIndex.forever true (inbox w) w)
                [(is_KeyboardInterrupt,
                  fun _ => print "Stopping file watcher..." ;; do_ ObserverStop)] ;;
           do_ ObserverJoin in
  fst (c w) = (if existsb is_signal (inbox w) then Raise (SystemExit 0) else Blocks) /\
  grows handler_effect w (snd (c w)).
Proof.
  intro c. subst c.
  set (w1 := emit (Print ("File watcher started. Monitoring " ++ WatchAndIndex.WATCH_PATH
                          ++ " for changes...")) w).
  rewrite (bind_ret_eq (print _) _ w w1 tt eq_refl).
  pose proof (forever_outcome (inbox w1) true w1) as Hr.
  destruct (tame_forever_handler (inbox w1) true w1) as [Hg _].
  assert (H1 : grows handler_effect w w1) by (apply grows_emit; exact I).
  destruct (WatchAndIndex.forever true (inbox w1) w1) as [r w2] eqn:Ef.
  cbn [fst snd] in Hr, Hg.
  change (inbox w1) with (inbox w) in Hr.
  destruct (existsb is_signal (inbox w)); subst r.
  - assert (Ht : try_ (fun w => WatchAndIndex.forever true (inbox w) w)
                   [(is_KeyboardInterrupt,
                     fun _ => print "Stopping file watcher..." ;; do_ ObserverStop)] w1
                 = (Raise (SystemExit 0), w2)).
    { unfold try_. rewrite Ef. reflexivity. }
    rewrite (bind_raise_eq _ _ _ _ _ Ht). split; [reflexivity|].
    eapply grows_trans; eassumption.
  - assert (Ht : try_ (fun w => WatchAndIndex.forever true (inbox w) w)
                   [(is_KeyboardInterrupt,
                     fun _ => print "Stopping file watcher..." ;; do_ ObserverStop)] w1
                 = (Blocks, w2)).
    { unfold try_. rewrite Ef. reflexivity. }
    rewrite (bind_blocks_eq _ _ _ _ Ht). split; [reflexivity|].
    eapply grows_trans; eassumption.
Qed.

Lemma handler_effect_no_cleanup (tr : list effect) :
  Forall handler_effect tr -> Forall no_cleanup tr.
Proof.
  intro H. eapply Forall_impl; [|exact H].
  intros e He. destruct e; try contradiction; repeat split; try discriminate;
    intros; discriminate.
Qed.

Lemma start_file_watcher_cases (w : World) :
  fst (WatchAndIndex.start_file_watcher w)
  = (if match fs w WatchAndIndex.WATCH_PATH with None => negb (makedirs_ok w) | Some _ => false end
     then OsExit 1
     else if existsb is_signal (inbox w) then Raise (SystemExit 0) else Blocks) /\
  exists tr,
    trace (snd (WatchAndIndex.start_file_watcher w))
    = (trace w ++ Print "Starting file watcher for /data_to_index..."
         :: (match fs w WatchAndIndex.WATCH_PATH with
             | None => [Print "Creating watch directory: /data_to_index";
                        Makedirs WatchAndIndex.WATCH_PATH]
             | Some _ => []
             end) ++ tr)%list /\
    Forall no_cleanup tr.
Proof.
  destruct (WatchAndIndex.start_file_watcher w) as [r Wf] eqn:E. cbn [fst snd].
  unfold WatchAndIndex.start_file_watcher in E.
  set (clauses := [(is_Exception,
                    fun e => print ("Error in file watcher: " ++ exn_str e) ;;
                             @os_exit unit 1)]) in E.
  unfold try_ at 1 in E.
  set (w1 := emit (Print ("Starting file watcher for " ++ WatchAndIndex.WATCH_PATH ++ "...")) w)
    in *.
  rewrite (bind_ret_eq (print _) _ w w1 tt eq_refl) in E.
  rewrite (bind_ret_eq (path_exists WatchAndIndex.WATCH_PATH) _ w1 w1
             (match fs w WatchAndIndex.WATCH_PATH with Some _ => true | None => false end)
             eq_refl) in E.
  assert (Hfinish : forall W pre,
             trace W = (trace w ++ pre)%list -> inbox W = inbox w ->
             let c := do_ (Schedule WatchAndIndex.WATCH_PATH true) ;;
                      do_ ObserverStart ;;
                      print ("File watcher started. Monitoring " ++ WatchAndIndex.WATCH_PATH
                             ++ " for changes...") ;;
                      try_ (fun w => WatchAndIndex.forever true (inbox w) w)
                           [(is_KeyboardInterrupt,
                             fun _ => print "Stopping file watcher..." ;; do_ ObserverStop)] ;;
                      do_ ObserverJoin in
             fst (match c W with (Raise e, w') => pick e clauses w' | r => r end)
             = (if existsb is_signal (inbox w) then Raise (SystemExit 0) else Blocks) /\
             exists tr,
               trace (snd (match c W with (Raise e, w') => pick e clauses w' | r => r end))
               = (trace w ++ pre ++ tr)%list /\ Forall no_cleanup tr).
  { intros W pre HW Hin c. subst c.
    set (W1 := emit (Schedule WatchAndIndex.WATCH_PATH true) W).
    rewrite (bind_ret_eq (do_ _) _ W W1 tt eq_refl).
    set (W2 := emit ObserverStart W1).
    rewrite (bind_ret_eq (do_ ObserverStart) _ W1 W2 tt eq_refl).
    destruct (watcher_rest W2) as [Hr [_ (tr & Htr & Hall)]]. cbv zeta in Hr, Htr.
    change (inbox W2) with (inbox W) in Hr. rewrite Hin in Hr.
    match goal with
    | |- context [bind (print ?m) ?k W2] => set (c := bind (print m) k) in *
    end.
    destruct (c W2) as [r3 W3] eqn:EX.
    cbn [fst snd] in Hr, Htr. subst r3.
    assert (Htrace : trace W3
                     = (trace w ++ pre ++ Schedule WatchAndIndex.WATCH_PATH true
                          :: ObserverStart :: tr)%list).
    { rewrite Htr. unfold W2, W1. cbn [trace emit]. rewrite HW, <- !app_assoc. reflexivity. }
    assert (Hno : Forall no_cleanup
                    (Schedule WatchAndIndex.WATCH_PATH true :: ObserverStart :: tr)).
    { constructor; [repeat split; try discriminate; intros; discriminate|].
      constructor; [repeat split; try discriminate; intros; discriminate|].
      apply handler_effect_no_cleanup. exact Hall. }
    destruct (existsb is_signal (inbox w)).
    - cbn [pick clauses is_Exception raise fst snd].
      split; [reflexivity|]. eexists. split; [exact Htrace|exact Hno].
    - cbn [fst snd]. split; [reflexivity|]. eexists. split; [exact Htrace|exact Hno]. }
  destruct (fs w WatchAndIndex.WATCH_PATH) as [k|] eqn:Efs; cbn [negb when] in E.
  - rewrite (bind_ret_eq (ret tt) _ w1 w1 tt eq_refl) in E.
    destruct (Hfinish w1 [Print "Starting file watcher for /data_to_index..."]
                eq_refl eq_refl) as [Hr (tr & Htr & Hall)]. cbv zeta in Hr, Htr.
    rewrite E in Hr, Htr. cbn [fst snd] in Hr, Htr.
    split; [exact Hr|]. exists tr. split; [exact Htr|exact Hall].
  - set (w2 := emit (Print ("Creating watch directory: " ++ WatchAndIndex.WATCH_PATH)) w1)
      in *.
    destruct (makedirs_ok w) eqn:Eok; cbn [negb].
    + set (w3 := with_fs (fun q => if String.eqb q WatchAndIndex.WATCH_PATH
                                   then Some Dir else fs w2 q)
                         (emit (Makedirs WatchAndIndex.WATCH_PATH) w2)).
      assert (Hmk : (print ("Creating watch directory: " ++ WatchAndIndex.WATCH_PATH) ;;
                     WatchAndIndex.makedirs WatchAndIndex.WATCH_PATH) w1 = (Ret tt, w3)).
      { rewrite (bind_ret_eq (print _) _ w1 w2 tt eq_refl).
        unfold WatchAndIndex.makedirs. change (makedirs_ok w2) with (makedirs_ok w).
        rewrite Eok. reflexivity. }
      rewrite (bind_ret_eq _ _ _ _ _ Hmk) in E.
      destruct (Hfinish w3 [Print "Starting file watcher for /data_to_index...";
                            Print "Creating watch directory: /data_to_index";
                            Makedirs WatchAndIndex.WATCH_PATH]
                  ltac:(unfold w3, w2, w1; cbn [trace with_fs emit];
                        rewrite <- !app_assoc; reflexivity) eq_refl)
        as [Hr (tr & Htr & Hall)]. cbv zeta in Hr, Htr.
      rewrite E in Hr, Htr. cbn [fst snd] in Hr, Htr.
      split; [exact Hr|]. exists tr. split; [exact Htr|exact Hall].
    + assert (Hmk : (print ("Creating watch directory: " ++ WatchAndIndex.WATCH_PATH) ;;
                     WatchAndIndex.makedirs WatchAndIndex.WATCH_PATH) w1
                    = (Raise PermissionError, emit (Makedirs WatchAndIndex.WATCH_PATH) w2)).
      { rewrite (bind_ret_eq (print _) _ w1 w2 tt eq_refl).
        unfold WatchAndIndex.makedirs. change (makedirs_ok w2) with (makedirs_ok w).
        rewrite Eok. reflexivity. }
      rewrite (bind_raise_eq _ _ _ _ _ Hmk) in E.
      cbn [pick clauses is_Exception bind print os_exit fst snd] in E.
      inversion E; subst r Wf; clear E.
      split; [reflexivity|].
      exists [Print ("Error in file watcher: " ++ exn_str PermissionError)].
      split.
      * unfold w2, w1. cbn [trace emit]. rewrite <- !app_assoc. reflexivity.
      * constructor; [|constructor]. repeat split; try discriminate; intros; discriminate.
Qed.

(** X15.  [start_file_watcher] creates the watch root only when it is
    missing.  When the directory cannot be created the process ends with
    status 1 and the observer is never started.  Otherwise the watcher runs
    until a signal arrives, and the signal ends it with [sys.exit(0)]
    raised by [signal_handler]: the [KeyboardInterrupt] clause is never
    taken, so that the observer is neither stopped nor joined. *)
Theorem start_file_watcher_outcome (w : World) :
  fst (WatchAndIndex.start_file_watcher w)
  = (if match fs w WatchAndIndex.WATCH_PATH with None => negb (makedirs_ok w) | Some _ => false end
     then OsExit 1
     else if existsb is_signal (inbox w) then Raise (SystemExit 0) else Blocks) /\
  exists tr,
    trace (snd (WatchAndIndex.start_file_watcher w))
    = (trace w ++ Print "Starting file watcher for /data_to_index..."
         :: (match fs w WatchAndIndex.WATCH_PATH with
             | None => [Print "Creating watch directory: /data_to_index";
                        Makedirs WatchAndIndex.WATCH_PATH]
             | Some _ => []
             end) ++ tr)%list /\
    Forall no_cleanup tr.
Proof. apply start_file_watcher_cases. Qed.

(** ** The lock of the handler: its owner can always go on *)

Lemma step_keeps_lock (s s' : Threads.state) (l : Threads.label) :
  Threads.step s l = Some s' ->
  mutex s -> lock_owned s ->
  mutex s' /\ lock_owned s'.
Proof.
  intros Hstep Hm Ho.
  assert (Hkeep : forall i p lk,
             Threads.in_lock (Threads.pcs s i) = false ->
             lk = Threads.locked s ->
             lock_owned (Threads.mkState (Threads.handler s) lk
                           (Threads.upd (Threads.pcs s) i p))).
  { intros i p lk Hi -> Hl. cbn in Hl. destruct (Ho Hl) as [j Hj].
    exists j. cbn. rewrite upd_other; [exact Hj|]. intros ->. congruence. }
  destruct l as [i ev t|i]; cbn [Threads.step] in Hstep.
  - destruct (Threads.pcs s i) eqn:Ei; try discriminate.
    destruct (is_directory ev); inversion Hstep; subst; clear Hstep.
    + split; assumption.
    + split.
      * apply mutex_upd_outside; rewrite ?Ei; cbn; try assumption; try reflexivity;
          try discriminate.
      * apply Hkeep; [rewrite Ei|]; reflexivity.
  - destruct (Threads.pcs s i) as [|t|t|t|t] eqn:Ei; try discriminate.
    + destruct (Threads.locked s) eqn:El; [discriminate|].
      inversion Hstep; subst; clear Hstep. split.
      * destruct Hm as [Hl Hu].
        assert (Hnone : forall j, j <> i ->
                  Threads.in_lock (Threads.upd (Threads.pcs s) i (Threads.Holding t) j)
                  = true -> False).
        { intros j Hne Hj. rewrite upd_other in Hj by exact Hne.
          specialize (Hl j Hj). congruence. }
        split; cbn [Threads.pcs Threads.locked]; [reflexivity|].
        intros j k Hj Hk.
        destruct (Nat.eq_dec j i) as [->|Hj']; [|exfalso; exact (Hnone j Hj' Hj)].
        destruct (Nat.eq_dec k i) as [->|Hk']; [reflexivity|exfalso; exact (Hnone k Hk' Hk)].
      * intros _. exists i. cbn. rewrite upd_same. reflexivity.
    + destruct (debounce (Threads.handler s) t) as [go h'] eqn:Ed.
      destruct go; inversion Hstep; subst s'; clear Hstep.
      * split.
        -- destruct Hm as [Hl Hu].
           assert (Hback : forall j, Threads.in_lock
                             (Threads.upd (Threads.pcs s) i (Threads.Stored t) j) = true ->
                           Threads.in_lock (Threads.pcs s j) = true).
           { intros j Hj. destruct (Nat.eq_dec j i) as [->|Hne];
               [rewrite Ei; reflexivity|rewrite upd_other in Hj by exact Hne; exact Hj]. }
           split; cbn [Threads.pcs Threads.locked].
           ++ intros j Hj. apply (Hl j). apply Hback. exact Hj.
           ++ intros j k Hj Hk. apply Hu; apply Hback; assumption.
        -- intros _. exists i. cbn. rewrite upd_same. reflexivity.
      * split.
        -- destruct Hm as [Hl Hu]. split; cbn [Threads.pcs Threads.locked].
           ++ intros j Hj. destruct (Nat.eq_dec j i) as [->|Hne].
              ** rewrite upd_same in Hj. discriminate Hj.
              ** rewrite upd_other in Hj by exact Hne. exfalso. apply Hne.
                 apply Hu; [exact Hj|rewrite Ei; reflexivity].
           ++ intros j k Hj Hk.
              destruct (Nat.eq_dec j i) as [->|Hj'];
                [rewrite upd_same in Hj; discriminate Hj|].
              destruct (Nat.eq_dec k i) as [->|Hk'];
                [rewrite upd_same in Hk; discriminate Hk|].
              rewrite upd_other in Hj, Hk by assumption. apply Hu; assumption.
        -- intro Hl. discriminate Hl.
    + inversion Hstep; subst; clear Hstep. split.
      * apply mutex_upd_outside; rewrite ?Ei; cbn; try assumption; try reflexivity;
          try discriminate.
      * intro Hl. discriminate Hl.
    + inversion Hstep; subst; clear Hstep. split.
      * apply mutex_upd_outside; rewrite ?Ei; cbn; try assumption; try reflexivity;
          try discriminate.
      * apply Hkeep; [rewrite Ei|]; reflexivity.
Qed.

Lemma exec_keeps_lock (ls : list Threads.label) :
  forall s s' : Threads.state,
    Threads.exec s ls = Some s' ->
    mutex s -> lock_owned s -> mutex s' /\ lock_owned s'.
Proof.
  induction ls as [|l ls IH]; intros s s' Hex Hm Ho; cbn [Threads.exec] in Hex.
  - inversion Hex; subst. split; assumption.
  - destruct (Threads.step s l) as [s1|] eqn:Es; [|discriminate].
    destruct (step_keeps_lock s s1 l Es Hm Ho) as [Hm1 Ho1].
    exact (IH s1 s' Hex Hm1 Ho1).
Qed.

(** X16.  The lock of the handler cannot be lost, and the interleaved calls
    cannot deadlock on it.  In every state they can reach, the lock is held
    exactly when some call is inside [with self.lock]; every call under way
    has an enabled step, its own or, when it waits for the lock, one of the
    call that holds the lock; and the call that holds the lock gives it back
    within two steps of its own, both enabled whatever the other calls do.
    Whether a waiting call ever gets the lock depends on the scheduler, of
    which nothing is assumed here. *)
Theorem lock_owner_can_go_on (h : CocoIndexEventHandler)
    (ls : list Threads.label) (s : Threads.state) :
  Threads.exec (Threads.start h) ls = Some s ->
  (Threads.locked s = true <-> exists i, Threads.in_lock (Threads.pcs s i) = true) /\
  (forall i, Threads.pcs s i <> Threads.Idle ->
     (exists s', Threads.step s (Threads.Step i) = Some s') \/
     (exists t j s',
        Threads.pcs s i = Threads.Waiting t /\
        Threads.in_lock (Threads.pcs s j) = true /\
        Threads.step s (Threads.Step j) = Some s')) /\
  (forall j, Threads.in_lock (Threads.pcs s j) = true ->
     exists s1,
       Threads.step s (Threads.Step j) = Some s1 /\
       (Threads.locked s1 = false \/
        exists s2,
          Threads.step s1 (Threads.Step j) = Some s2 /\ Threads.locked s2 = false)).
Proof.
  intro Hex.
  destruct (start_invariant h) as [Hm0 _].
  assert (Ho0 : lock_owned (Threads.start h)) by (intro H; discriminate H).
  destruct (exec_keeps_lock ls _ s Hex Hm0 Ho0) as [[Hl Hu] Ho].
  assert (Hgo : forall j, Threads.in_lock (Threads.pcs s j) = true ->
                  exists s1,
                    Threads.step s (Threads.Step j) = Some s1 /\
                    (Threads.locked s1 = false \/
                     exists s2,
                       Threads.step s1 (Threads.Step j) = Some s2 /\
                       Threads.locked s2 = false)).
  { intros j Hj. cbn [Threads.step].
    destruct (Threads.pcs s j) as [|t|t|t|t]; try discriminate Hj.
    - destruct (debounce (Threads.handler s) t) as [go h']. destruct go.
      + eexists. split; [reflexivity|]. right.
        cbn [Threads.step Threads.pcs]. rewrite upd_same.
        eexists. split; reflexivity.
      + eexists. split; [reflexivity|]. left. reflexivity.
    - eexists. split; [reflexivity|]. left. reflexivity. }
  split; [|split].
  - split; [exact Ho|]. intros [i Hi]. exact (Hl i Hi).
  - intros i Hi.
    destruct (Threads.pcs s i) as [|t|t|t|t] eqn:Ei.
    + contradiction.
    + destruct (Threads.locked s) eqn:El.
      * right. destruct (Ho El) as [j Hj]. destruct (Hgo j Hj) as (s' & Hs' & _).
        exists t, j, s'. repeat split; assumption.
      * left. cbn [Threads.step]. rewrite Ei, El. eexists. reflexivity.
    + left. destruct (Hgo i) as (s' & Hs' & _); [rewrite Ei; reflexivity|].
      exists s'. exact Hs'.
    + left. destruct (Hgo i) as (s' & Hs' & _); [rewrite Ei; reflexivity|].
      exists s'. exact Hs'.
    + left. cbn [Threads.step]. rewrite Ei. eexists. reflexivity.
  - exact Hgo.
Qed.

Lemma lock_owner_can_go_on_witness :
  exists s,
    Threads.exec (Threads.start (init "/w" "/w/main.py" 2))
      [Threads.Deliver 0 a_file_event 100; Threads.Step 0;
       Threads.Deliver 1 a_file_event 101] = Some s /\
    (Threads.locked s = true <-> exists i, Threads.in_lock (Threads.pcs s i) = true) /\
    exists s1 s2,
      Threads.step s (Threads.Step 0) = Some s1 /\
      Threads.step s1 (Threads.Step 0) = Some s2 /\
      Threads.locked s2 = false.
Proof.
  eexists. split; [reflexivity|].
  split.
  - exact (proj1 (lock_owner_can_go_on (init "/w" "/w/main.py" 2)
                    [Threads.Deliver 0 a_file_event 100; Threads.Step 0;
                     Threads.Deliver 1 a_file_event 101] _ eq_refl)).
  - eexists. eexists. split; [reflexivity|]. split; reflexivity.
Defined.
